(** * userlog.password_expiry: password and account expiry for Django logins

    A shallow embedding of [src/userlog/password_expiry.py] and the
    properties its specification states about it.

    Modelling decisions, all visible in the definitions below:
    - Python values that the module reads off settings and user records are
      the inductive [value]; truthiness, [==] and [<] follow Python.
    - A datetime is a count of microseconds on one time line (all datetimes
      are timezone-aware, as Django produces them with [USE_TZ]), counted
      from [datetime.min].  The definitions compute the two cutoffs without
      the range limit of [datetime] and [timedelta]; where Python would
      raise [OverflowError] for a window that reaches before year 1, they
      return a cutoff before the origin.  A property that states what a
      check returns for an enabled window therefore assumes
      [representable_window], under which the two agree, unless it has a
      datetime of the user before the cutoff: a datetime is not before
      the origin, so that the cutoff is within range then.
    - The manager compares the natural key with [==], which is what the
      database does for a string key on a string column; the key is not
      coerced to the column's type.
    - Django's save is taken for a user model in which every attribute of
      the object is a column of the table.
    - A user object is its primary key plus its attribute dictionary;
      [hasattr]/[getattr]/[setattr] are lookups and inserts in that
      dictionary.  Reading a missing attribute raises [AttributeError].
    - The host (Django) is the [world]: settings, the clock, the table of
      user rows, the security log and the signals sent so far.  The clock
      has one reading for the duration of a call.  Code that
      reads or changes it runs in the monad [M], which threads the world
      and carries Python exceptions.  In-place mutation of the user object
      is modelled by returning the mutated object. *)

From stdpp Require Import gmap strings list fin_maps.
From Stdlib Require Import ZArith Lia.

Local Open Scope string_scope.
Local Open Scope Z_scope.

(** ** Python values *)

Inductive value : Type :=
| VNone
| VBool (b : bool)
| VInt (n : Z)
| VStr (s : string)
| VDateTime (t : Z).

#[global] Instance value_eq_dec : EqDecision value.
Proof. solve_decision. Defined.

(** Truth value testing ([bool(v)]): [None], [False], [0] and [""] are
    false, every datetime is true. *)
Definition truthy (v : value) : bool :=
  match v with
  | VNone => false
  | VBool b => b
  | VInt n => negb (n =? 0)
  | VStr s => negb (String.eqb s "")
  | VDateTime _ => true
  end.

(** [a == b].  [True == 1] and [False == 0] hold in Python; values of
    otherwise different types are unequal. *)
Definition py_eq (a b : value) : bool :=
  match a, b with
  | VNone, VNone => true
  | VBool x, VBool y => Bool.eqb x y
  | VBool x, VInt n => (if x then 1 else 0) =? n
  | VInt n, VBool x => n =? (if x then 1 else 0)
  | VInt m, VInt n => m =? n
  | VStr s, VStr t => String.eqb s t
  | VDateTime s, VDateTime t => s =? t
  | _, _ => false
  end.

(** [a != b] *)
Definition py_ne (a b : value) : bool := negb (py_eq a b).

(** [timedelta(days=n)], in microseconds. *)
Definition timedelta_days (n : Z) : Z := n * 86400 * 1000000.

(** The windows for which Python computes a cutoff: [timedelta(days=n)]
    exists for at most 999999999 days, and [now - timedelta(days=n)]
    exists when it is not before [datetime.min], the origin of the time
    line.  A day has 86400000000 microseconds.  Outside of this the
    subtraction raises [OverflowError]. *)
Definition representable_window (now n : Z) : Prop :=
  n <= 999999999 ∧ 0 <= now - n * 86400000000.

(** ** Settings, users and the host *)

(** [django.conf.settings], the five keys the module reads.  [None] is a
    key that is absent or set to [None] (both read as [None] through
    [getattr(settings, key, None)]). *)
Record Settings : Type := {
  PASSWORD_EXPIRY_DAYS : option Z;
  PASSWORD_EXPIRY_WARNING_DAYS : option Z;
  AUTH_USER_MODEL_PASSWORD_CHANGE_DATE_ATTR : option string;
  AUTH_USER_MODEL_PASSWORD_ATTR : option string;
  ACCOUNT_EXPIRY_DAYS : option Z
}.

(** The namedtuple [ExpirySettings]. *)
Record ExpirySettings : Type := {
  num_days : Z;
  num_warning_days : Z;
  date_changed : option string;
  password : string;
  account_expiry : Z
}.

(** A user object: [user.pk] and the instance attributes. *)
Record user : Type := {
  pk : option Z;
  fields : gmap string value
}.

#[global] Instance user_eq_dec : EqDecision user.
Proof. solve_decision. Defined.

Definition hasattr (u : user) (name : string) : bool :=
  bool_decide (is_Some (fields u !! name)).

Definition setattr (u : user) (name : string) (v : value) : user :=
  {| pk := pk u; fields := <[name := v]> (fields u) |}.

(** Records of the ["django.security"] logger. *)
Inductive log_record : Type :=
| Warning_no_attribute (attr : string)  (* warning: the model has no such attribute *)
| Warning_no_last_login                 (* warning: the model has no last_login field *)
| Info_password_expired (u : user)      (* info: the password of this user has expired *)
| Info_disabling_stale (u : user).      (* info: disabling this stale user account *)

(** A [Signal.send] of one of the module's two signals, with its [user]
    argument as it is at the time of sending. *)
Inductive signal : Type :=
| password_has_expired (u : user)
| account_has_expired (u : user).

Inductive exn : Type :=
| PermissionDenied (msg : string)
| DoesNotExist
| MultipleObjectsReturned
| AttributeError (name : string)
| TypeError.

Record world : Type := {
  settings : Settings;
  USERNAME_FIELD : string;            (* UserModel.USERNAME_FIELD *)
  now : Z;                            (* the reading of timezone.now() *)
  rows : gmap Z (gmap string value);  (* the user table, by primary key *)
  next_pk : Z;                        (* the key the next INSERT receives *)
  security_log : list log_record;
  sent : list signal
}.

Definition with_rows (w : world) (r : gmap Z (gmap string value)) (n : Z) : world :=
  {| settings := settings w; USERNAME_FIELD := USERNAME_FIELD w; now := now w;
     rows := r; next_pk := n;
     security_log := security_log w; sent := sent w |}.

Definition with_log (w : world) (l : list log_record) : world :=
  {| settings := settings w; USERNAME_FIELD := USERNAME_FIELD w; now := now w;
     rows := rows w; next_pk := next_pk w;
     security_log := l; sent := sent w |}.

Definition with_sent (w : world) (s : list signal) : world :=
  {| settings := settings w; USERNAME_FIELD := USERNAME_FIELD w; now := now w;
     rows := rows w; next_pk := next_pk w;
     security_log := security_log w; sent := s |}.

(** ** The monad of host effects and exceptions *)

Inductive outcome (A : Type) : Type :=
| Return (a : A)
| Raise (e : exn).
Arguments Return {A} a.
Arguments Raise {A} e.

Definition M (A : Type) : Type := world -> outcome A * world.

Definition ret {A} (a : A) : M A := fun w => (Return a, w).

Definition raise {A} (e : exn) : M A := fun w => (Raise e, w).

Definition bind {A B} (m : M A) (k : A -> M B) : M B :=
  fun w =>
    match m w with
    | (Return a, w') => k a w'
    | (Raise e, w') => (Raise e, w')
    end.

Notation "'let!' x ':=' m 'in' k" := (bind m (fun x => k))
  (at level 10, x name, m at level 100, k at level 200).
Notation "'do!' m 'in' k" := (bind m (fun _ => k))
  (at level 10, m at level 100, k at level 200).

Definition timezone_now : M Z := fun w => (Return (now w), w).

Definition logger_warning (r : log_record) : M unit :=
  fun w => (Return tt, with_log w (security_log w ++ [r])).

Definition logger_info (r : log_record) : M unit :=
  fun w => (Return tt, with_log w (security_log w ++ [r])).

Definition Signal_send (s : signal) : M unit :=
  fun w => (Return tt, with_sent w (sent w ++ [s])).

(** [user.name]: the attribute, or [AttributeError]. *)
Definition getattr (u : user) (name : string) : M value :=
  match fields u !! name with
  | Some v => ret v
  | None => raise (AttributeError name)
  end.

(** [type(user).objects.get(pk=k)] *)
Definition objects_get_pk (k : Z) : M user :=
  fun w =>
    match rows w !! k with
    | Some r => (Return {| pk := Some k; fields := r |}, w)
    | None => (Raise DoesNotExist, w)
    end.

(** Whether a row's [USERNAME_FIELD] column equals the natural key.  The
    comparison is [==] on the values as they are; Django coerces the key
    to the type of the column first, which makes no difference for a
    string key on a column of strings. *)
Definition natural_key_is (field : string) (key : value)
    (r : gmap string value) : bool :=
  match r !! field with
  | Some v => py_eq v key
  | None => false
  end.

(** [UserModel._default_manager.get_by_natural_key(username)], that is
    a [get] on the [USERNAME_FIELD] column: the one matching row, and
    Django's two exceptions when there is none or more than one. *)
Definition get_by_natural_key (username : value) : M user :=
  fun w =>
    match map_to_list
            (filter (fun kr => natural_key_is (USERNAME_FIELD w) username kr.2 = true)
                    (rows w)) with
    | [] => (Raise DoesNotExist, w)
    | [(k, r)] => (Return {| pk := Some k; fields := r |}, w)
    | _ => (Raise MultipleObjectsReturned, w)
    end.

(** ** ExpirySettings *)

(** [x or d] on an integer setting: [None] and [0] are falsy. *)
Definition or_int (x : option Z) (d : Z) : Z :=
  match x with
  | Some n => if n =? 0 then d else n
  | None => d
  end.

(** [x or None] on a string setting: [None] and [""] are falsy. *)
Definition or_None (x : option string) : option string :=
  match x with
  | Some s => if String.eqb s "" then None else Some s
  | None => None
  end.

(** [x or d] on a string setting. *)
Definition or_str (x : option string) (d : string) : string :=
  match x with
  | Some s => if String.eqb s "" then d else s
  | None => d
  end.

(** [ExpirySettings.get()] *)
Definition ExpirySettings_get : M ExpirySettings :=
  fun w =>
    let expiry := or_int (PASSWORD_EXPIRY_DAYS (settings w)) 0 in
    let warning := or_int (PASSWORD_EXPIRY_WARNING_DAYS (settings w)) 0 in
    let date_changed := or_None (AUTH_USER_MODEL_PASSWORD_CHANGE_DATE_ATTR (settings w)) in
    let password := or_str (AUTH_USER_MODEL_PASSWORD_ATTR (settings w)) "password" in
    let account_expiry := or_int (ACCOUNT_EXPIRY_DAYS (settings w)) 0 in
    (Return {| num_days := expiry; num_warning_days := warning;
               date_changed := date_changed; password := password;
               account_expiry := account_expiry |}, w).

(** The property [earliest_possible_login].  The subtraction is the one
    of the integers: the [OverflowError] of Python outside
    [representable_window] is not modelled. *)
Definition earliest_possible_login (self : ExpirySettings) : M (option Z) :=
  if 0 <? account_expiry self then
    let! t := timezone_now in
    ret (Some (t - timedelta_days (account_expiry self)))
  else ret None.

(** The property [earliest_possible_password_change].  As for
    [earliest_possible_login], the [OverflowError] of Python outside
    [representable_window] is not modelled. *)
Definition earliest_possible_password_change (self : ExpirySettings)
  : M (option Z) :=
  if 0 <? num_days self then
    let! t := timezone_now in
    ret (Some (t - timedelta_days (num_days self)))
  else ret None.

(** The configured password window, when enabled, is one for which
    Python computes the cutoff. *)
Definition password_window_representable (w : world) : Prop :=
  forall n, PASSWORD_EXPIRY_DAYS (settings w) = Some n -> 0 < n ->
            representable_window (now w) n.

(** The same for the inactivity window. *)
Definition account_window_representable (w : world) : Prop :=
  forall d, ACCOUNT_EXPIRY_DAYS (settings w) = Some d -> 0 < d ->
            representable_window (now w) d.

(** ** The change-tracking hook *)

(** [update_date_changed(user, attrs)]; the result is the user object
    after the call. *)
Definition update_date_changed (u : user) (attrs : ExpirySettings) : M user :=
  let! old_password :=
    match pk u with
    | Some k =>
        let! old_user := objects_get_pk k in
        getattr old_user (password attrs)
    | None => ret VNone
    end in
  let! new_password := getattr u "password" in
  if py_ne old_password new_password then
    match date_changed attrs with
    | Some name =>
        let! t := timezone_now in
        ret (setattr u name (VDateTime t))
    | None => raise TypeError   (* setattr with a name that is None *)
    end
  else ret u.

(** [set_password_changed], the receiver of [pre_save] for the user
    model; the result is [instance] after the call. *)
Definition set_password_changed (instance : user) (created raw : bool) : M user :=
  let! attrs := ExpirySettings_get in
  if negb raw && bool_decide (is_Some (date_changed attrs)) then
    update_date_changed instance attrs
  else ret instance.

(** ** The expiry checks *)

(** [v and v < earliest], where [earliest] is a datetime: a falsy [v] is
    the result itself; a datetime is compared; ordering any other value
    against a datetime is a [TypeError]. *)
Definition and_before (v : value) (earliest : Z) : M value :=
  if truthy v then
    match v with
    | VDateTime t => ret (VBool (t <? earliest))
    | _ => raise TypeError
    end
  else ret v.

(** [get_password_change_date(user)] *)
Definition get_password_change_date (u : user) : M value :=
  let! s := ExpirySettings_get in
  match date_changed s with
  | Some attr =>
      if hasattr u attr then getattr u attr
      else do! logger_warning (Warning_no_attribute attr) in ret VNone
  | None => ret VNone
  end.

(** [is_password_expired(user)] *)
Definition is_password_expired (u : user) : M value :=
  let! s := ExpirySettings_get in
  let! earliest := earliest_possible_password_change s in
  match earliest with
  | Some e =>
      let! change_date := get_password_change_date u in
      and_before change_date e
  | None => ret (VBool false)
  end.

(** [get_user_last_login(user)] *)
Definition get_user_last_login (u : user) : M value :=
  if hasattr u "last_login" then getattr u "last_login"
  else do! logger_warning Warning_no_last_login in ret VNone.

(** [is_account_expired(user)] *)
Definition is_account_expired (u : user) : M value :=
  let! s := ExpirySettings_get in
  let! earliest := earliest_possible_login s in
  match earliest with
  | Some e =>
      let! last_login := get_user_last_login u in
      and_before last_login e
  | None => ret (VBool false)
  end.

(** ** Saving a user *)

(** Django's [Model.save()] for the user model: it sends [pre_save],
    which runs the receiver registered above with [raw=False], and then
    writes the row, under the object's primary key when it has one and
    under the next key of the table otherwise.  The result is the object
    after the call.  The row written is the attribute dictionary of the
    object: every attribute is taken to be a column of the table (Django
    writes the model's fields only, so an attribute that is no field of
    the model would not be stored). *)
Definition Model_save (u : user) : M user :=
  let! u := set_password_changed u false false in
  fun w =>
    match pk u with
    | Some k => (Return u, with_rows w (<[k := fields u]> (rows w)) (next_pk w))
    | None =>
        let k := next_pk w in
        (Return {| pk := Some k; fields := fields u |},
         with_rows w (<[k := fields u]> (rows w)) (k + 1))
    end.

(** ** The authentication backend *)

(** [AccountExpiryBackend._lookup_user(username, password, **kwargs)].
    A [username] that is [None] is replaced by [kwargs.get(USERNAME_FIELD)],
    which is [None] when the key is missing.  Since [username] and
    [password] are named parameters, a call never has these two names as
    keys of [kwargs]. *)
Definition _lookup_user (username password : value)
    (kwargs : gmap string value) : M (option user) :=
  fun w =>
    let username :=
      match username with
      | VNone => default VNone (kwargs !! USERNAME_FIELD w)
      | _ => username
      end in
    match get_by_natural_key username w with
    | (Return u, w') => (Return (Some u), w')
    | (Raise DoesNotExist, w') => (Return None, w')
    | (Raise e, w') => (Raise e, w')
    end.

Section AccountExpiryBackend.

(** [user.save()] is a method of the host's user model; the backend is
    stated over any such operation, [Model_save] being Django's.  Its
    result is the user object after the call. *)
Variable save : user -> M user.

(** [AccountExpiryBackend.authenticate(username, password, **kwargs)].
    The backend never authenticates: it returns [None] (the next backend
    decides) or raises [PermissionDenied]. *)
Definition authenticate (username password : value)
    (kwargs : gmap string value) : M (option user) :=
  let! found := _lookup_user username password kwargs in
  match found with
  | Some u =>
      let! inactive :=
        if hasattr u "is_active" then
          let! a := getattr u "is_active" in ret (negb (truthy a))
        else ret false in
      if inactive then raise (PermissionDenied "Account is not active")
      else
        let! pw := is_password_expired u in
        if truthy pw then
          do! logger_info (Info_password_expired u) in
          do! Signal_send (password_has_expired u) in
          raise (PermissionDenied "Password has expired")
        else
          let! acc := is_account_expired u in
          if truthy acc then
            do! logger_info (Info_disabling_stale u) in
            let u := setattr u "is_active" (VBool false) in
            let! u := save u in
            do! Signal_send (account_has_expired u) in
            raise (PermissionDenied "Account has expired")
          else ret None
  | None => ret None
  end.

End AccountExpiryBackend.

(** ** Sample data

    A settings object, a table with three users and a clock reading, used
    to run the definitions on concrete inputs. *)

Module Sample.

Definition day : Z := 86400 * 1000000.

(** Password expiry after 30 days, account expiry after 90 days. *)
Definition both_on : Settings :=
  {| PASSWORD_EXPIRY_DAYS := Some 30;
     PASSWORD_EXPIRY_WARNING_DAYS := Some 5;
     AUTH_USER_MODEL_PASSWORD_CHANGE_DATE_ATTR := Some "password_change_date";
     AUTH_USER_MODEL_PASSWORD_ATTR := None;
     ACCOUNT_EXPIRY_DAYS := Some 90 |}.

(** Account expiry after 90 days, password expiry switched off. *)
Definition account_only : Settings :=
  {| PASSWORD_EXPIRY_DAYS := Some 0;
     PASSWORD_EXPIRY_WARNING_DAYS := None;
     AUTH_USER_MODEL_PASSWORD_CHANGE_DATE_ATTR := Some "password_change_date";
     AUTH_USER_MODEL_PASSWORD_ATTR := None;
     ACCOUNT_EXPIRY_DAYS := Some 90 |}.

(** As [both_on], with the password kept in an attribute [pw_hash]. *)
Definition custom_password_attr : Settings :=
  {| PASSWORD_EXPIRY_DAYS := Some 30;
     PASSWORD_EXPIRY_WARNING_DAYS := Some 5;
     AUTH_USER_MODEL_PASSWORD_CHANGE_DATE_ATTR := Some "password_change_date";
     AUTH_USER_MODEL_PASSWORD_ATTR := Some "pw_hash";
     ACCOUNT_EXPIRY_DAYS := Some 90 |}.

(** No date attribute configured. *)
Definition no_date_attr : Settings :=
  {| PASSWORD_EXPIRY_DAYS := Some 30;
     PASSWORD_EXPIRY_WARNING_DAYS := None;
     AUTH_USER_MODEL_PASSWORD_CHANGE_DATE_ATTR := None;
     AUTH_USER_MODEL_PASSWORD_ATTR := None;
     ACCOUNT_EXPIRY_DAYS := None |}.

(** alice: active, password changed 31 days before the clock reading of
    day 1000, last login 91 days before it. *)
Definition alice : gmap string value :=
  {[ "username" := VStr "alice"; "password" := VStr "pbkdf2$a";
     "pw_hash" := VStr "argon2$a"; "is_active" := VBool true;
     "last_login" := VDateTime (909 * day);
     "password_change_date" := VDateTime (969 * day) ]}.

(** bob: inactive, and both his password and his last login are old. *)
Definition bob : gmap string value :=
  {[ "username" := VStr "bob"; "password" := VStr "pbkdf2$b";
     "is_active" := VBool false;
     "last_login" := VDateTime (100 * day);
     "password_change_date" := VDateTime (100 * day) ]}.

(** carol: active, never logged in, no password change date recorded. *)
Definition carol : gmap string value :=
  {[ "username" := VStr "carol"; "password" := VStr "pbkdf2$c";
     "is_active" := VBool true;
     "last_login" := VNone;
     "password_change_date" := VNone ]}.

Definition table : gmap Z (gmap string value) :=
  {[ 1 := alice; 2 := bob; 3 := carol ]}.

Definition host (s : Settings) : world :=
  {| settings := s; USERNAME_FIELD := "username"; now := 1000 * day;
     rows := table; next_pk := 4; security_log := []; sent := [] |}.

Definition obj (k : Z) (r : gmap string value) : user :=
  {| pk := Some k; fields := r |}.

(** A user object that has not been saved yet. *)
Definition fresh (password : value) : user :=
  {| pk := None;
     fields := {[ "username" := VStr "dave"; "password" := password ]} |}.

End Sample.

(** Further sample data: a user in good standing, a table in which a
    natural key is not unique, and a user model without the optional
    attributes. *)

Module Sample2.

(** dora: active, password changed 10 days and last login 5 days before
    the clock reading of day 1000. *)
Definition dora : gmap string value :=
  {[ "username" := VStr "dora"; "password" := VStr "pbkdf2$d";
     "is_active" := VBool true;
     "last_login" := VDateTime (995 * Sample.day);
     "password_change_date" := VDateTime (990 * Sample.day) ]}.

(** erin: a row of a user model that has neither [is_active] nor
    [last_login] nor a password change date. *)
Definition erin : gmap string value :=
  {[ "username" := VStr "erin"; "password" := VStr "pbkdf2$e" ]}.

Definition table : gmap Z (gmap string value) :=
  {[ 1 := Sample.alice; 4 := dora; 5 := erin; 6 := Sample.alice ]}.

(** The table has alice twice (keys 1 and 6), dora and erin once. *)
Definition host (s : Settings) : world :=
  {| settings := s; USERNAME_FIELD := "username"; now := 1000 * Sample.day;
     rows := table; next_pk := 7; security_log := []; sent := [] |}.

(** The same host one day later. *)
Definition host_next_day (s : Settings) : world :=
  {| settings := s; USERNAME_FIELD := "username"; now := 1001 * Sample.day;
     rows := table; next_pk := 7; security_log := []; sent := [] |}.

(** Settings in which every key is absent. *)
Definition nothing_set : Settings :=
  {| PASSWORD_EXPIRY_DAYS := None;
     PASSWORD_EXPIRY_WARNING_DAYS := None;
     AUTH_USER_MODEL_PASSWORD_CHANGE_DATE_ATTR := None;
     AUTH_USER_MODEL_PASSWORD_ATTR := None;
     ACCOUNT_EXPIRY_DAYS := None |}.

End Sample2.

(** * Properties *)

(** Unfolding of the monad's operations and of the host's primitives. *)
Ltac run :=
  unfold bind, ret, raise, timezone_now, logger_warning, logger_info,
    Signal_send, getattr, ExpirySettings_get,
    earliest_possible_password_change, earliest_possible_login; simpl.

Lemma or_int_pos (n : Z) : 0 < n -> or_int (Some n) 0 = n.
Proof. intros H. unfold or_int. destruct (n =? 0) eqn:E; [lia | done]. Qed.

Lemma or_None_Some (a : string) : a ≠ "" -> or_None (Some a) = Some a.
Proof.
  intros H. unfold or_None. destruct (String.eqb a "") eqn:E; [|done].
  apply String.eqb_eq in E. done.
Qed.

Lemma hasattr_Some (u : user) (a : string) (v : value) :
  fields u !! a = Some v -> hasattr u a = true.
Proof. intros H. unfold hasattr. apply bool_decide_eq_true. eauto. Qed.

Lemma hasattr_None (u : user) (a : string) :
  fields u !! a = None -> hasattr u a = false.
Proof.
  intros H. unfold hasattr. apply bool_decide_eq_false.
  rewrite H. by intros [? ?].
Qed.

Lemma py_eq_refl (v : value) : py_eq v v = true.
Proof.
  destruct v; simpl; auto using Z.eqb_refl, String.eqb_refl.
  by destruct b.
Qed.

(** ** The password-expiry check *)

(** What [get_password_change_date] returns for a configured attribute
    that the user object has. *)
Lemma get_password_change_date_present (w : world) (u : user)
    (a : string) (v : value) :
  or_None (AUTH_USER_MODEL_PASSWORD_CHANGE_DATE_ATTR (settings w)) = Some a ->
  fields u !! a = Some v ->
  get_password_change_date u w = (Return v, w).
Proof.
  intros Ha Hv. unfold get_password_change_date. run.
  rewrite Ha, (hasattr_Some _ _ _ Hv), Hv. done.
Qed.

(** The result of [is_password_expired] when expiry is enabled and the
    configured attribute holds a datetime. *)
Lemma is_password_expired_datetime (w : world) (u : user)
    (n : Z) (a : string) (t : Z) :
  PASSWORD_EXPIRY_DAYS (settings w) = Some n -> 0 < n ->
  AUTH_USER_MODEL_PASSWORD_CHANGE_DATE_ATTR (settings w) = Some a -> a ≠ "" ->
  fields u !! a = Some (VDateTime t) ->
  is_password_expired u w
  = (Return (VBool (t <? now w - timedelta_days n)), w).
Proof.
  intros Hn Hpos Ha Hne Ht.
  unfold is_password_expired. run. rewrite Hn, (or_int_pos n Hpos).
  destruct (0 <? n) eqn:Hlt; [|lia]. simpl.
  rewrite (get_password_change_date_present w u a (VDateTime t));
    [| by rewrite Ha, or_None_Some | done].
  reflexivity.
Qed.

(** C7: with PASSWORD_EXPIRY_DAYS set to 0 or absent, is_password_expired
    returns False for every user object, whatever its password change
    date (or any other attribute) is, and leaves the host untouched. *)
Theorem C7_is_password_expired_disabled (w : world) (u : user) :
  PASSWORD_EXPIRY_DAYS (settings w) = Some 0 ∨
  PASSWORD_EXPIRY_DAYS (settings w) = None ->
  is_password_expired u w = (Return (VBool false), w).
Proof.
  intros H. unfold is_password_expired. run.
  by destruct H as [-> | ->].
Qed.

Lemma C7_witness :
  is_password_expired (Sample.obj 1 Sample.alice) (Sample.host Sample.account_only)
  = (Return (VBool false), Sample.host Sample.account_only).
Proof.
  apply (C7_is_password_expired_disabled (Sample.host Sample.account_only)).
  left. reflexivity.
Defined.

(** C1: with password expiry enabled (n = PASSWORD_EXPIRY_DAYS > 0, a
    window for which Python computes the cutoff, date attribute
    configured) and a user whose password change date is the datetime t,
    is_password_expired returns True exactly when t is strictly before
    now - n days, a day being 86400000000 microseconds: a later t gives
    False, and so does t equal to the cutoff. *)
Theorem C1_is_password_expired_cutoff (w : world) (u : user)
    (n : Z) (a : string) (t : Z) :
  PASSWORD_EXPIRY_DAYS (settings w) = Some n -> 0 < n ->
  representable_window (now w) n ->
  AUTH_USER_MODEL_PASSWORD_CHANGE_DATE_ATTR (settings w) = Some a -> a ≠ "" ->
  fields u !! a = Some (VDateTime t) ->
  let cutoff := now w - n * 86400000000 in
  is_password_expired u w = (Return (VBool (bool_decide (t < cutoff))), w)
  ∧ (t < cutoff -> is_password_expired u w = (Return (VBool true), w))
  ∧ (cutoff < t -> is_password_expired u w = (Return (VBool false), w))
  ∧ (t = cutoff -> is_password_expired u w = (Return (VBool false), w)).
Proof.
  intros Hn Hpos _ Ha Hne Ht cutoff.
  rewrite (is_password_expired_datetime w u n a t Hn Hpos Ha Hne Ht).
  assert (Hc : now w - timedelta_days n = cutoff)
    by (unfold timedelta_days, cutoff; lia).
  rewrite Hc. repeat split; try intros Hlt; do 3 f_equal.
  - destruct (t <? cutoff) eqn:E; symmetry.
    + apply bool_decide_eq_true. lia.
    + apply bool_decide_eq_false. lia.
  - lia.
  - lia.
  - lia.
Qed.

(** The clock reads day 1000 and the window is 30 days, so the cutoff is
    day 970, microsecond 83808000000000: a password changed one
    microsecond before it has expired, one changed at it has not. *)
Lemma C1_witness :
  is_password_expired
    (setattr (Sample.obj 1 Sample.alice) "password_change_date"
             (VDateTime 83807999999999))
    (Sample.host Sample.both_on)
  = (Return (VBool true), Sample.host Sample.both_on)
  ∧ is_password_expired
      (setattr (Sample.obj 1 Sample.alice) "password_change_date"
               (VDateTime 83808000000000))
      (Sample.host Sample.both_on)
    = (Return (VBool false), Sample.host Sample.both_on).
Proof.
  split.
  - refine (proj1 (proj2 (C1_is_password_expired_cutoff
              (Sample.host Sample.both_on)
              (setattr (Sample.obj 1 Sample.alice) "password_change_date"
                       (VDateTime 83807999999999))
              30 "password_change_date" 83807999999999 _ _ _ _ _ _)) _).
    + reflexivity.
    + lia.
    + split; vm_compute; discriminate.
    + reflexivity.
    + discriminate.
    + vm_compute. reflexivity.
    + vm_compute. reflexivity.
  - refine (proj2 (proj2 (proj2 (C1_is_password_expired_cutoff
              (Sample.host Sample.both_on)
              (setattr (Sample.obj 1 Sample.alice) "password_change_date"
                       (VDateTime 83808000000000))
              30 "password_change_date" 83808000000000 _ _ _ _ _ _))) _).
    + reflexivity.
    + lia.
    + split; vm_compute; discriminate.
    + reflexivity.
    + discriminate.
    + vm_compute. reflexivity.
    + vm_compute. reflexivity.
Defined.

(** C6: the two partial-data cases of is_password_expired, for a
    password window that is disabled or one for which Python computes the
    cutoff.
    (1) The date attribute is configured and present on the user object,
        but its value is falsy (None, or another empty value): the result
        is falsy, so the check does not trip, also with password expiry
        enabled.
    (2) No date attribute name is configured: the result is falsy for
        every user object, with password expiry enabled or not. *)
Theorem C6_is_password_expired_partial_data (w : world) (u : user) :
  password_window_representable w ->
  (forall (a : string) (v : value),
      or_None (AUTH_USER_MODEL_PASSWORD_CHANGE_DATE_ATTR (settings w)) = Some a ->
      fields u !! a = Some v -> truthy v = false ->
      exists r, is_password_expired u w = (Return r, w) ∧ truthy r = false)
  ∧ (or_None (AUTH_USER_MODEL_PASSWORD_CHANGE_DATE_ATTR (settings w)) = None ->
      exists r, is_password_expired u w = (Return r, w) ∧ truthy r = false).
Proof.
  intros _. split.
  - intros a v Ha Hv Hf. unfold is_password_expired. run.
    destruct (0 <? _); simpl; [|by exists (VBool false)].
    rewrite (get_password_change_date_present w u a v Ha Hv).
    unfold and_before. rewrite Hf. by exists v.
  - intros Ha. unfold is_password_expired. run.
    destruct (0 <? _); simpl; [|by exists (VBool false)].
    unfold get_password_change_date. run. rewrite Ha.
    by exists VNone.
Qed.

(** C9: with the raw flag set, the pre-save hook returns the user object
    as it received it and leaves the host untouched, for every user
    object, every settings and every stored password. *)
Theorem C9_set_password_changed_raw (w : world) (instance : user)
    (created : bool) :
  set_password_changed instance created true w = (Return instance, w).
Proof. reflexivity. Qed.

(** The same save of a changed password with and without the raw flag:
    alice, stored under key 1, is saved with a new password. *)
Example raw_flag_alice :
  set_password_changed
    (setattr (Sample.obj 1 Sample.alice) "password" (VStr "pbkdf2$new"))
    false true (Sample.host Sample.both_on)
  = (Return (setattr (Sample.obj 1 Sample.alice) "password" (VStr "pbkdf2$new")),
     Sample.host Sample.both_on)
  ∧ set_password_changed
      (setattr (Sample.obj 1 Sample.alice) "password" (VStr "pbkdf2$new"))
      false false (Sample.host Sample.both_on)
    = (Return (setattr
                 (setattr (Sample.obj 1 Sample.alice) "password"
                          (VStr "pbkdf2$new"))
                 "password_change_date" (VDateTime (1000 * Sample.day))),
       Sample.host Sample.both_on).
Proof. split; vm_compute; reflexivity. Qed.

(** ** The inactivity check *)

(** A last_login attribute that is present but falsy gives a falsy
    result, whatever ACCOUNT_EXPIRY_DAYS is. *)
Lemma is_account_expired_falsy_login (w : world) (u : user) (v : value) :
  fields u !! "last_login" = Some v -> truthy v = false ->
  exists r, is_account_expired u w = (Return r, w) ∧ truthy r = false.
Proof.
  intros Hv Hf. unfold is_account_expired. run.
  destruct (0 <? _); simpl; [|by exists (VBool false)].
  unfold get_user_last_login. rewrite (hasattr_Some _ _ _ Hv). run.
  rewrite Hv. simpl. unfold and_before. rewrite Hf. by exists v.
Qed.

(** ** Running the backend *)

Lemma bind_Return {A B} (m : M A) (k : A -> M B) (w w' : world) (a : A) :
  m w = (Return a, w') -> bind m k w = k a w'.
Proof. intros H. unfold bind. by rewrite H. Qed.

Lemma bind_Raise {A B} (m : M A) (k : A -> M B) (w w' : world) (e : exn) :
  m w = (Raise e, w') -> bind m k w = (Raise e, w').
Proof. intros H. unfold bind. by rewrite H. Qed.

Lemma bind_logger_info {B} (r : log_record) (k : unit -> M B) (w : world) :
  bind (logger_info r) k w = k tt (with_log w (security_log w ++ [r])).
Proof. reflexivity. Qed.

Lemma bind_Signal_send {B} (s : signal) (k : unit -> M B) (w : world) :
  bind (Signal_send s) k w = k tt (with_sent w (sent w ++ [s])).
Proof. reflexivity. Qed.

Lemma with_log_same (w : world) : with_log w (security_log w) = w.
Proof. by destruct w. Qed.

(** The lookup only reads the table. *)
Lemma lookup_user_world (username password : value)
    (kwargs : gmap string value) (w w' : world) (o : outcome (option user)) :
  _lookup_user username password kwargs w = (o, w') -> w' = w.
Proof.
  unfold _lookup_user, get_by_natural_key.
  repeat case_match; congruence.
Qed.

(** A user object that the lookup returns is a row of the table, under
    the object's primary key. *)
Lemma lookup_user_row (username password : value)
    (kwargs : gmap string value) (w w' : world) (u : user) :
  _lookup_user username password kwargs w = (Return (Some u), w') ->
  exists k, pk u = Some k ∧ rows w !! k = Some (fields u).
Proof.
  unfold _lookup_user, get_by_natural_key.
  set (key := match username with VNone => _ | _ => _ end).
  destruct (map_to_list _) as [|[k r] [|? ?]] eqn:E; simpl; try congruence.
  intros [= <- <-]. exists k. split; [done|]. simpl.
  assert (Hin : (k, r) ∈ [(k, r)]) by apply list_elem_of_here.
  rewrite <- E in Hin. apply elem_of_map_to_list in Hin.
  apply map_lookup_filter_Some in Hin. tauto.
Qed.

(** The active-flag test of [authenticate], for a user object that has no
    [is_active] attribute or a truthy one. *)
Lemma active_check_passes (u : user) (w : world) :
  (forall a, fields u !! "is_active" = Some a -> truthy a = true) ->
  (if hasattr u "is_active" then
     let! a := getattr u "is_active" in ret (negb (truthy a))
   else ret false) w = (Return false, w).
Proof.
  intros H. destruct (fields u !! "is_active") as [a|] eqn:E.
  - rewrite (hasattr_Some _ _ _ E). run. rewrite E. simpl. by rewrite (H a).
  - by rewrite (hasattr_None _ _ E).
Qed.

Lemma active_check_fails (u : user) (w : world) (a : value) :
  fields u !! "is_active" = Some a -> truthy a = false ->
  (if hasattr u "is_active" then
     let! a := getattr u "is_active" in ret (negb (truthy a))
   else ret false) w = (Return true, w).
Proof.
  intros E H. rewrite (hasattr_Some _ _ _ E). run. rewrite E. simpl.
  by rewrite H.
Qed.

(** The active-flag test never raises and never changes the host. *)
Lemma active_check_total (u : user) (w : world) :
  exists b,
    (if hasattr u "is_active" then
       let! a := getattr u "is_active" in ret (negb (truthy a))
     else ret false) w = (Return b, w).
Proof.
  destruct (fields u !! "is_active") as [a|] eqn:E.
  - destruct (truthy a) eqn:T.
    + exists false. apply active_check_passes. intros ? ?. congruence.
    + exists true. by apply (active_check_fails u w a).
  - exists false. apply active_check_passes. intros ? ?. congruence.
Qed.

(** The two expiry checks change nothing of the host but its log. *)
Ltac frame :=
  repeat case_match;
  unfold bind, ret, raise, timezone_now, logger_warning in *;
  simplify_eq/=; intros ?; simplify_eq/=; by rewrite ?with_log_same.

Lemma is_password_expired_frame (u : user) (w w' : world) (o : outcome value) :
  is_password_expired u w = (o, w') -> w' = with_log w (security_log w').
Proof.
  unfold is_password_expired, get_password_change_date, and_before. run.
  frame.
Qed.

Lemma is_account_expired_frame (u : user) (w w' : world) (o : outcome value) :
  is_account_expired u w = (o, w') -> w' = with_log w (security_log w').
Proof.
  unfold is_account_expired, get_user_last_login, and_before. run.
  frame.
Qed.

(** C3: the order of the checks of the gate, for a user that the lookup
    resolves.
    (1) A user whose is_active attribute is falsy is denied with
        PermissionDenied "Account is not active" (the reason the
        specification calls account inactive), whatever the password
        change date and the last login are; nothing is logged, sent or
        saved.
    (2) A user that is not inactive and whose password has expired is
        denied with PermissionDenied "Password has expired": the denial is
        logged and the password_has_expired signal is sent with the user
        object unchanged; save is not called and the table is as before,
        whatever the last login is. *)
Theorem C3_authenticate_order (save : user -> M user)
    (username password : value) (kwargs : gmap string value)
    (w : world) (u : user) :
  _lookup_user username password kwargs w = (Return (Some u), w) ->
  (forall a, fields u !! "is_active" = Some a -> truthy a = false ->
     authenticate save username password kwargs w
     = (Raise (PermissionDenied "Account is not active"), w))
  ∧ (forall (n : Z) (attr : string) (t : Z),
       (forall a, fields u !! "is_active" = Some a -> truthy a = true) ->
       PASSWORD_EXPIRY_DAYS (settings w) = Some n -> 0 < n ->
       AUTH_USER_MODEL_PASSWORD_CHANGE_DATE_ATTR (settings w) = Some attr ->
       attr ≠ "" ->
       fields u !! attr = Some (VDateTime t) ->
       t < now w - timedelta_days n ->
       authenticate save username password kwargs w
       = (Raise (PermissionDenied "Password has expired"),
          with_sent (with_log w (security_log w ++ [Info_password_expired u]))
                    (sent w ++ [password_has_expired u]))).
Proof.
  intros Hlook. split.
  - intros a Ha Hf. unfold authenticate.
    rewrite (bind_Return _ _ _ _ _ Hlook).
    by rewrite (bind_Return _ _ _ _ _ (active_check_fails u w a Ha Hf)).
  - intros n attr t Hact Hn Hpos Hattr Hne Ht Hlt. unfold authenticate.
    rewrite (bind_Return _ _ _ _ _ Hlook).
    rewrite (bind_Return _ _ _ _ _ (active_check_passes u w Hact)).
    rewrite (bind_Return _ _ _ _ _
               (is_password_expired_datetime w u n attr t Hn Hpos Hattr Hne Ht)).
    simpl. by destruct (t <? _) eqn:E; [|lia].
Qed.

Lemma C3_witness :
  authenticate Model_save (VStr "bob") VNone ∅ (Sample.host Sample.both_on)
  = (Raise (PermissionDenied "Account is not active"),
     Sample.host Sample.both_on)
  ∧ authenticate Model_save (VStr "alice") VNone ∅ (Sample.host Sample.both_on)
    = (Raise (PermissionDenied "Password has expired"),
       with_sent
         (with_log (Sample.host Sample.both_on)
                   [Info_password_expired (Sample.obj 1 Sample.alice)])
         [password_has_expired (Sample.obj 1 Sample.alice)]).
Proof.
  split.
  - refine (proj1 (C3_authenticate_order Model_save (VStr "bob") VNone ∅
              (Sample.host Sample.both_on) (Sample.obj 2 Sample.bob) _)
              (VBool false) _ _).
    + vm_compute. reflexivity.
    + vm_compute. reflexivity.
    + reflexivity.
  - refine (proj2 (C3_authenticate_order Model_save (VStr "alice") VNone ∅
              (Sample.host Sample.both_on) (Sample.obj 1 Sample.alice) _)
              30 "password_change_date" (969 * Sample.day) _ _ _ _ _ _ _).
    + vm_compute. reflexivity.
    + intros a Ha. vm_compute in Ha. by injection Ha as <-.
    + reflexivity.
    + lia.
    + reflexivity.
    + discriminate.
    + vm_compute. reflexivity.
    + vm_compute. reflexivity.
Defined.

(** [is_password_expired] raises nothing but the [TypeError] of ordering
    a value that is not a datetime against the cutoff. *)
Lemma is_password_expired_exn (u : user) (w w' : world) (e : exn) :
  is_password_expired u w = (Raise e, w') -> e = TypeError.
Proof.
  unfold is_password_expired, get_password_change_date, and_before. run.
  repeat case_match;
    unfold bind, ret, raise, timezone_now, logger_warning, hasattr in *;
    simplify_eq/=; intros ?; simplify_eq/=; try done.
  match goal with
  | H : bool_decide _ = true |- _ => apply bool_decide_eq_true in H
  end.
  match goal with
  | H : is_Some ?x, H' : ?x = None |- _ => rewrite H' in H; by destruct H
  end.
Qed.

(** When no row has the natural key, the manager raises [DoesNotExist]. *)
Lemma get_by_natural_key_unknown (key : value) (w : world) :
  (forall k r, rows w !! k = Some r ->
               natural_key_is (USERNAME_FIELD w) key r = false) ->
  get_by_natural_key key w = (Raise DoesNotExist, w).
Proof.
  intros H. unfold get_by_natural_key.
  assert (E : filter (fun kr : Z * gmap string value =>
                        natural_key_is (USERNAME_FIELD w) key kr.2 = true)
                     (rows w) = ∅).
  { apply map_empty. intros k. apply map_lookup_filter_None_2.
    destruct (rows w !! k) as [r|] eqn:Hk; [right | by left].
    intros r' [= <-]. simpl. rewrite (H k r Hk). done. }
  rewrite E, map_to_list_empty. done.
Qed.

(** C8: the natural key is a string (the username, or for a username
    that is None the value of kwargs under USERNAME_FIELD) and the
    USERNAME_FIELD column of the user table holds strings (or None), none
    of them that string.  Then authenticate returns None, the answer that
    passes the decision to the next backend: DoesNotExist is caught,
    nothing is raised, and the host (table, log, signals sent) is exactly
    as before. *)
Theorem C8_authenticate_unknown_user (save : user -> M user)
    (username password : value) (kwargs : gmap string value) (w : world)
    (name : string) :
  username = VStr name
  ∨ (username = VNone ∧ kwargs !! USERNAME_FIELD w = Some (VStr name)) ->
  (forall k r v, rows w !! k = Some r -> r !! USERNAME_FIELD w = Some v ->
     v = VNone ∨ exists s, v = VStr s ∧ s ≠ name) ->
  authenticate save username password kwargs w = (Return None, w).
Proof.
  intros Hkey Hrows. unfold authenticate.
  assert (G : get_by_natural_key (VStr name) w = (Raise DoesNotExist, w)).
  { apply get_by_natural_key_unknown. intros k r Hk. unfold natural_key_is.
    destruct (r !! USERNAME_FIELD w) as [v|] eqn:Hv; [|done].
    destruct (Hrows k r v Hk Hv) as [-> | (s & -> & Hne)]; [done|].
    simpl. by apply String.eqb_neq. }
  assert (L : _lookup_user username password kwargs w = (Return None, w)).
  { unfold _lookup_user.
    destruct Hkey as [-> | [-> Hkw]]; [|rewrite Hkw; simpl]; by rewrite G. }
  by rewrite (bind_Return _ _ _ _ _ L).
Qed.

Lemma C8_witness :
  authenticate Model_save (VStr "mallory") (VStr "secret") ∅
    (Sample.host Sample.both_on)
  = (Return None, Sample.host Sample.both_on).
Proof.
  apply (C8_authenticate_unknown_user Model_save (VStr "mallory")
           (VStr "secret") ∅ (Sample.host Sample.both_on) "mallory").
  - left. reflexivity.
  - intros k r v Hk Hv. simpl in Hk, Hv. unfold Sample.table in Hk.
    right.
    destruct (decide (k = 1)) as [-> | N1];
      [injection Hk as <-; injection Hv as <-; by exists "alice"|].
    destruct (decide (k = 2)) as [-> | N2];
      [injection Hk as <-; injection Hv as <-; by exists "bob"|].
    destruct (decide (k = 3)) as [-> | N3];
      [injection Hk as <-; injection Hv as <-; by exists "carol"|].
    rewrite !lookup_insert_ne, lookup_singleton_ne in Hk by done. done.
Defined.

(** C10: a user object whose last_login attribute is present and None.
    (1) is_account_expired returns a falsy result in every host state
        whose inactivity window is disabled or one for which Python
        computes the cutoff: for every such settings, also with
        ACCOUNT_EXPIRY_DAYS > 0.
    (2) When the lookup resolves to such a user, authenticate never takes
        the inactivity branch: the user table is as before (save is not
        called), the outcome is not PermissionDenied "Account has
        expired", and the only signal that may have been sent is
        password_has_expired.
    (3) If moreover the user is not inactive, the password check does not
        trip and both windows are disabled or ones for which Python
        computes the cutoff, authenticate returns None. *)
Theorem C10_never_logged_in (save : user -> M user)
    (username password : value) (kwargs : gmap string value)
    (w : world) (u : user) :
  fields u !! "last_login" = Some VNone ->
  (forall w0 : world,
      account_window_representable w0 ->
      exists r, is_account_expired u w0 = (Return r, w0) ∧ truthy r = false)
  ∧ (_lookup_user username password kwargs w = (Return (Some u), w) ->
     rows (authenticate save username password kwargs w).2 = rows w
     ∧ (authenticate save username password kwargs w).1
       ≠ Raise (PermissionDenied "Account has expired")
     ∧ (sent (authenticate save username password kwargs w).2 = sent w
        ∨ sent (authenticate save username password kwargs w).2
          = (sent w ++ [password_has_expired u])%list)
     ∧ ((forall a, fields u !! "is_active" = Some a -> truthy a = true) ->
        password_window_representable w ->
        account_window_representable w ->
        forall r w1, is_password_expired u w = (Return r, w1) ->
                     truthy r = false ->
        authenticate save username password kwargs w = (Return None, w1))).
Proof.
  intros Hlogin.
  assert (Hacc : forall w0 : world,
             exists r, is_account_expired u w0 = (Return r, w0)
                       ∧ truthy r = false).
  { intros w0. by apply (is_account_expired_falsy_login w0 u VNone). }
  split; [intros w0 _; exact (Hacc w0)|]. intros Hlook.
  unfold authenticate. rewrite (bind_Return _ _ _ _ _ Hlook).
  split_and!.
  - destruct (active_check_total u w) as [b Hb].
    rewrite (bind_Return _ _ _ _ _ Hb). destruct b; [done|].
    destruct (is_password_expired u w) as [o w1] eqn:Hpw.
    pose proof (is_password_expired_frame _ _ _ _ Hpw) as Hw1.
    destruct o as [r|e].
    + rewrite (bind_Return _ _ _ _ _ Hpw). destruct (truthy r).
      * simpl. by rewrite Hw1.
      * destruct (Hacc w1) as (r' & Hr' & Hf).
        rewrite (bind_Return _ _ _ _ _ Hr'), Hf. simpl. by rewrite Hw1.
    + rewrite (bind_Raise _ _ _ _ _ Hpw). simpl. by rewrite Hw1.
  - destruct (active_check_total u w) as [b Hb].
    rewrite (bind_Return _ _ _ _ _ Hb). destruct b; [done|].
    destruct (is_password_expired u w) as [o w1] eqn:Hpw.
    destruct o as [r|e].
    + rewrite (bind_Return _ _ _ _ _ Hpw). destruct (truthy r); [done|].
      destruct (Hacc w1) as (r' & Hr' & Hf).
      by rewrite (bind_Return _ _ _ _ _ Hr'), Hf.
    + rewrite (bind_Raise _ _ _ _ _ Hpw). simpl.
      by rewrite (is_password_expired_exn _ _ _ _ Hpw).
  - destruct (active_check_total u w) as [b Hb].
    rewrite (bind_Return _ _ _ _ _ Hb). destruct b; [by left|].
    destruct (is_password_expired u w) as [o w1] eqn:Hpw.
    pose proof (is_password_expired_frame _ _ _ _ Hpw) as Hw1.
    destruct o as [r|e].
    + rewrite (bind_Return _ _ _ _ _ Hpw). destruct (truthy r).
      * right. simpl. by rewrite Hw1.
      * left. destruct (Hacc w1) as (r' & Hr' & Hf).
        rewrite (bind_Return _ _ _ _ _ Hr'), Hf. simpl. by rewrite Hw1.
    + left. rewrite (bind_Raise _ _ _ _ _ Hpw). simpl. by rewrite Hw1.
  - intros Hact _ _ r w1 Hpw Hf.
    rewrite (bind_Return _ _ _ _ _ (active_check_passes u w Hact)).
    rewrite (bind_Return _ _ _ _ _ Hpw), Hf.
    destruct (Hacc w1) as (r' & Hr' & Hf').
    by rewrite (bind_Return _ _ _ _ _ Hr'), Hf'.
Qed.

Lemma C10_witness :
  (exists r, is_account_expired (Sample.obj 3 Sample.carol)
               (Sample.host Sample.both_on)
             = (Return r, Sample.host Sample.both_on) ∧ truthy r = false)
  ∧ authenticate Model_save (VStr "carol") VNone ∅ (Sample.host Sample.both_on)
    = (Return None, Sample.host Sample.both_on).
Proof.
  assert (Hlogin : fields (Sample.obj 3 Sample.carol) !! "last_login"
                   = Some VNone) by (vm_compute; reflexivity).
  pose proof (C10_never_logged_in Model_save (VStr "carol") VNone ∅
                (Sample.host Sample.both_on) (Sample.obj 3 Sample.carol)
                Hlogin) as [Hacc Hgate].
  assert (Hpwin : password_window_representable (Sample.host Sample.both_on)).
  { intros n Hn _. injection Hn as <-. split; vm_compute; discriminate. }
  assert (Hawin : account_window_representable (Sample.host Sample.both_on)).
  { intros d Hd _. injection Hd as <-. split; vm_compute; discriminate. }
  split.
  - exact (Hacc (Sample.host Sample.both_on) Hawin).
  - assert (Hlook : _lookup_user (VStr "carol") VNone ∅
                      (Sample.host Sample.both_on)
                    = (Return (Some (Sample.obj 3 Sample.carol)),
                       Sample.host Sample.both_on))
      by (vm_compute; reflexivity).
    destruct (Hgate Hlook) as (_ & _ & _ & Hnone).
    apply (Hnone (fun a Ha => ltac:(vm_compute in Ha; by injection Ha as <-))
                 Hpwin Hawin VNone (Sample.host Sample.both_on)).
    + vm_compute. reflexivity.
    + reflexivity.
Defined.

(** The result of [is_account_expired] when account expiry is enabled
    and last_login holds a datetime. *)
Lemma is_account_expired_datetime (w : world) (u : user) (d t : Z) :
  ACCOUNT_EXPIRY_DAYS (settings w) = Some d -> 0 < d ->
  fields u !! "last_login" = Some (VDateTime t) ->
  is_account_expired u w
  = (Return (VBool (t <? now w - timedelta_days d)), w).
Proof.
  intros Hd Hpos Ht. unfold is_account_expired. run.
  rewrite Hd, (or_int_pos d Hpos). destruct (0 <? d) eqn:Hlt; [|lia]. simpl.
  unfold get_user_last_login. rewrite (hasattr_Some _ _ _ Ht). run.
  by rewrite Ht.
Qed.

(** Django's save of a user object whose stored password and in-memory
    password compare equal: the pre-save hook changes nothing and the row
    under the primary key is replaced by the object's fields. *)
Lemma Model_save_password_unchanged (w : world) (u : user) (k : Z)
    (r : gmap string value) (stored current : value) :
  pk u = Some k -> rows w !! k = Some r ->
  r !! or_str (AUTH_USER_MODEL_PASSWORD_ATTR (settings w)) "password"
    = Some stored ->
  fields u !! "password" = Some current ->
  py_eq stored current = true ->
  Model_save u w
  = (Return u, with_rows w (<[k := fields u]> (rows w)) (next_pk w)).
Proof.
  intros Hpk Hrow Hstored Hcur Heq.
  unfold Model_save, set_password_changed, update_date_changed, py_ne.
  unfold objects_get_pk. run.
  destruct (bool_decide _); simpl; [|by rewrite Hpk].
  rewrite Hpk. simpl. rewrite Hrow. simpl. rewrite Hstored. simpl.
  rewrite Hcur. simpl. rewrite Heq. simpl. by rewrite Hpk.
Qed.

(** With password expiry disabled, a resolved user that is not inactive
    and whose last login is before the cutoff reaches the inactivity
    branch: the deactivation is logged and the rest of the call is save,
    the signal and the denial. *)
Lemma authenticate_inactivity_branch (save : user -> M user)
    (username password : value) (kwargs : gmap string value)
    (w : world) (u : user) (d t : Z) :
  ACCOUNT_EXPIRY_DAYS (settings w) = Some d -> 0 < d ->
  PASSWORD_EXPIRY_DAYS (settings w) = Some 0
  ∨ PASSWORD_EXPIRY_DAYS (settings w) = None ->
  _lookup_user username password kwargs w = (Return (Some u), w) ->
  (forall a, fields u !! "is_active" = Some a -> truthy a = true) ->
  fields u !! "last_login" = Some (VDateTime t) ->
  t < now w - timedelta_days d ->
  authenticate save username password kwargs w
  = (let! u' := save (setattr u "is_active" (VBool false)) in
     do! Signal_send (account_has_expired u') in
     raise (PermissionDenied "Account has expired"))
      (with_log w (security_log w ++ [Info_disabling_stale u])).
Proof.
  intros Hd Hpos Hoff Hlook Hact Ht Hlt. unfold authenticate.
  rewrite (bind_Return _ _ _ _ _ Hlook).
  rewrite (bind_Return _ _ _ _ _ (active_check_passes u w Hact)).
  assert (Hpw : is_password_expired u w = (Return (VBool false), w)).
  { unfold is_password_expired. run. by destruct Hoff as [-> | ->]. }
  rewrite (bind_Return _ _ _ _ _ Hpw). simpl.
  rewrite (bind_Return _ _ _ _ _ (is_account_expired_datetime w u d t Hd Hpos Ht)).
  simpl. destruct (t <? _) eqn:E; [|lia].
  by rewrite bind_logger_info.
Qed.

(** C4: account expiry enabled (d = ACCOUNT_EXPIRY_DAYS > 0), password
    expiry disabled (PASSWORD_EXPIRY_DAYS 0 or absent), and a user that
    the lookup resolves, that is not inactive, and whose last login is a
    datetime strictly before now - d days.  Then authenticate logs the
    deactivation, sets is_active to False on the user object, calls the
    save operation of the user model on that object, sends the
    account_has_expired signal with the user object as save left it, and
    raises PermissionDenied "Account has expired" (the reason the
    specification calls account expired).  Stated for a save that
    returns; an exception of save propagates instead. *)
Theorem C4_authenticate_account_expired (save : user -> M user)
    (username password : value) (kwargs : gmap string value)
    (w w2 : world) (u u' : user) (d t : Z) :
  ACCOUNT_EXPIRY_DAYS (settings w) = Some d -> 0 < d ->
  PASSWORD_EXPIRY_DAYS (settings w) = Some 0
  ∨ PASSWORD_EXPIRY_DAYS (settings w) = None ->
  _lookup_user username password kwargs w = (Return (Some u), w) ->
  (forall a, fields u !! "is_active" = Some a -> truthy a = true) ->
  fields u !! "last_login" = Some (VDateTime t) ->
  t < now w - timedelta_days d ->
  save (setattr u "is_active" (VBool false))
       (with_log w (security_log w ++ [Info_disabling_stale u]))
  = (Return u', w2) ->
  authenticate save username password kwargs w
  = (Raise (PermissionDenied "Account has expired"),
     with_sent w2 (sent w2 ++ [account_has_expired u'])).
Proof.
  intros Hd Hpos Hoff Hlook Hact Ht Hlt Hsave.
  rewrite (authenticate_inactivity_branch save username password kwargs
             w u d t Hd Hpos Hoff Hlook Hact Ht Hlt).
  rewrite (bind_Return _ _ _ _ _ Hsave).
  by rewrite bind_Signal_send.
Qed.

(** The same call with Django's save, for a user model that has an
    is_active column and keeps the password in the attribute [password]:
    the row of the user is rewritten with is_active False and nothing
    else changed. *)
Lemma authenticate_account_expired_Model_save
    (username password : value) (kwargs : gmap string value)
    (w : world) (u : user) (d t : Z) (p flag : value) :
  ACCOUNT_EXPIRY_DAYS (settings w) = Some d -> 0 < d ->
  PASSWORD_EXPIRY_DAYS (settings w) = Some 0
  ∨ PASSWORD_EXPIRY_DAYS (settings w) = None ->
  _lookup_user username password kwargs w = (Return (Some u), w) ->
  fields u !! "is_active" = Some flag -> truthy flag = true ->
  fields u !! "last_login" = Some (VDateTime t) ->
  t < now w - timedelta_days d ->
  or_str (AUTH_USER_MODEL_PASSWORD_ATTR (settings w)) "password" = "password" ->
  fields u !! "password" = Some p ->
  exists k,
    pk u = Some k
    ∧ authenticate Model_save username password kwargs w
      = (Raise (PermissionDenied "Account has expired"),
         with_sent
           (with_rows
              (with_log w (security_log w ++ [Info_disabling_stale u]))
              (<[k := <["is_active" := VBool false]> (fields u)]> (rows w))
              (next_pk w))
           (sent w ++ [account_has_expired
                         (setattr u "is_active" (VBool false))])).
Proof.
  intros Hd Hpos Hoff Hlook Hflag Htrue Ht Hlt Hdef Hp.
  assert (Hact : forall a, fields u !! "is_active" = Some a -> truthy a = true)
    by (intros a Ha; congruence).
  destruct (lookup_user_row _ _ _ _ _ _ Hlook) as (k & Hpk & Hrow).
  exists k. split; [done|].
  rewrite (authenticate_inactivity_branch Model_save username password kwargs
             w u d t Hd Hpos Hoff Hlook Hact Ht Hlt).
  erewrite bind_Return; cycle 1.
  { apply (Model_save_password_unchanged _ _ k (fields u) p p).
    - done.
    - done.
    - simpl. by rewrite Hdef.
    - simpl. by rewrite lookup_insert_ne.
    - apply py_eq_refl. }
  by rewrite bind_Signal_send.
Qed.

Lemma C4_witness :
  authenticate Model_save (VStr "alice") VNone ∅
    (Sample.host Sample.account_only)
  = (Raise (PermissionDenied "Account has expired"),
     {| settings := Sample.account_only; USERNAME_FIELD := "username";
        now := 1000 * Sample.day;
        rows := <[1 := <["is_active" := VBool false]> Sample.alice]> Sample.table;
        next_pk := 4;
        security_log := [Info_disabling_stale (Sample.obj 1 Sample.alice)];
        sent := [account_has_expired
                   (setattr (Sample.obj 1 Sample.alice) "is_active"
                            (VBool false))] |}).
Proof.
  refine (eq_trans (C4_authenticate_account_expired Model_save (VStr "alice") VNone ∅
           (Sample.host Sample.account_only)
           (with_rows
              (with_log (Sample.host Sample.account_only)
                 [Info_disabling_stale (Sample.obj 1 Sample.alice)])
              (<[1 := <["is_active" := VBool false]> Sample.alice]> Sample.table)
              4)
           (Sample.obj 1 Sample.alice)
           (setattr (Sample.obj 1 Sample.alice) "is_active" (VBool false))
           90 (909 * Sample.day) _ _ _ _ _ _ _ _) _).
  - reflexivity.
  - lia.
  - left. reflexivity.
  - vm_compute. reflexivity.
  - intros a Ha. vm_compute in Ha. by injection Ha as <-.
  - vm_compute. reflexivity.
  - vm_compute. reflexivity.
  - vm_compute. reflexivity.
  - reflexivity.
Defined.

(** ** The change-tracking hook *)

(** What the enabled hook does for an existing record: it compares the
    stored value of the configured password attribute with the value of
    the attribute named [password] of the object being saved. *)
Lemma set_password_changed_existing (w : world) (u : user) (created : bool)
    (attr : string) (k : Z) (r : gmap string value) (stored current : value) :
  or_None (AUTH_USER_MODEL_PASSWORD_CHANGE_DATE_ATTR (settings w)) = Some attr ->
  pk u = Some k -> rows w !! k = Some r ->
  r !! or_str (AUTH_USER_MODEL_PASSWORD_ATTR (settings w)) "password"
    = Some stored ->
  fields u !! "password" = Some current ->
  set_password_changed u created false w
  = (Return (if py_ne stored current
             then setattr u attr (VDateTime (now w)) else u), w).
Proof.
  intros Hattr Hpk Hrow Hstored Hcur.
  unfold set_password_changed, update_date_changed, objects_get_pk. run.
  rewrite Hattr, Hpk. simpl. rewrite Hrow. simpl. rewrite Hstored. simpl.
  rewrite Hcur. simpl. by destruct (py_ne stored current).
Qed.

(** With the password attribute at its default name, the hook leaves an
    existing record alone when its password equals the stored one and
    stamps it with the current time when the two differ. *)
Lemma set_password_changed_default_attr (w : world) (u : user)
    (created : bool) (attr : string) (k : Z) (r : gmap string value)
    (stored current : value) :
  or_None (AUTH_USER_MODEL_PASSWORD_CHANGE_DATE_ATTR (settings w)) = Some attr ->
  or_str (AUTH_USER_MODEL_PASSWORD_ATTR (settings w)) "password" = "password" ->
  pk u = Some k -> rows w !! k = Some r ->
  r !! "password" = Some stored ->
  fields u !! "password" = Some current ->
  (py_eq stored current = true ->
   set_password_changed u created false w = (Return u, w))
  ∧ (py_eq stored current = false ->
     set_password_changed u created false w
     = (Return (setattr u attr (VDateTime (now w))), w)).
Proof.
  intros Hattr Hdef Hpk Hrow Hstored Hcur.
  rewrite <- Hdef in Hstored.
  rewrite (set_password_changed_existing w u created attr k r stored current)
    by done.
  unfold py_ne. by split; intros ->.
Qed.

(** C2, at a failing input: the password is configured to live in the
    attribute pw_hash.  The object being saved is the stored row of alice
    as it is, so its password value equals the stored one; yet the hook
    stamps password_change_date with the current time, because it compares
    the stored pw_hash with the attribute named password of the object. *)
Theorem C2_unchanged_password_stamped :
  rows (Sample.host Sample.custom_password_attr) !! 1
  = Some (fields (Sample.obj 1 Sample.alice))
  ∧ set_password_changed (Sample.obj 1 Sample.alice) false false
      (Sample.host Sample.custom_password_attr)
    = (Return (setattr (Sample.obj 1 Sample.alice) "password_change_date"
                       (VDateTime (1000 * Sample.day))),
       Sample.host Sample.custom_password_attr).
Proof. split; vm_compute; reflexivity. Qed.

(** The claim of C5 as the specification states it fails: a new record
    whose in-memory password is None is not stamped, since None equals the
    absent previous value. *)
Lemma C5_counterexample :
  ¬ (forall (w : world) (u : user) (created : bool) (attr : string) (v : value),
        or_None (AUTH_USER_MODEL_PASSWORD_CHANGE_DATE_ATTR (settings w))
          = Some attr ->
        pk u = None ->
        fields u !! "password" = Some v ->
        set_password_changed u created false w
        = (Return (setattr u attr (VDateTime (now w))), w)).
Proof.
  intros H.
  specialize (H (Sample.host Sample.both_on) (Sample.fresh VNone) false
                "password_change_date" VNone
                eq_refl eq_refl ltac:(vm_compute; reflexivity)).
  assert (E : set_password_changed (Sample.fresh VNone) false false
                (Sample.host Sample.both_on)
              = (Return (Sample.fresh VNone), Sample.host Sample.both_on))
    by (vm_compute; reflexivity).
  rewrite E in H.
  apply (f_equal (fun res : outcome user * world =>
                    match res.1 with
                    | Return x => fields x !! "password_change_date"
                    | Raise _ => None
                    end)) in H.
  vm_compute in H. discriminate H.
Qed.

(** A new record whose password is None is returned as it is: None equals
    the absent previous value. *)
Lemma set_password_changed_new_record_None (w : world) (u : user)
    (created raw : bool) :
  pk u = None ->
  fields u !! "password" = Some VNone ->
  set_password_changed u created raw w = (Return u, w).
Proof.
  intros Hpk Hv. unfold set_password_changed, update_date_changed. run.
  destruct (negb raw && _); [|done].
  rewrite Hpk. simpl. by rewrite Hv.
Qed.

(** C5, amended: for a new record (no primary key), with the hook enabled
    (date attribute configured, not a raw load), the hook stamps the
    configured attribute with the current time for every value other
    than None of the password attribute of the object being saved. *)
Theorem C5_new_record_stamped (w : world) (u : user) (created : bool)
    (attr : string) (v : value) :
  or_None (AUTH_USER_MODEL_PASSWORD_CHANGE_DATE_ATTR (settings w)) = Some attr ->
  pk u = None ->
  fields u !! "password" = Some v ->
  v ≠ VNone ->
  set_password_changed u created false w
  = (Return (setattr u attr (VDateTime (now w))), w)
  ∧ fields (setattr u attr (VDateTime (now w))) !! attr
    = Some (VDateTime (now w)).
Proof.
  intros Hattr Hpk Hv Hne. split.
  - unfold set_password_changed, update_date_changed. run.
    rewrite Hattr, Hpk. simpl. rewrite Hv. simpl.
    unfold py_ne. by destruct v.
  - simpl. apply lookup_insert_eq.
Qed.

Lemma C5_witness :
  set_password_changed (Sample.fresh (VStr "pbkdf2$d")) false false
    (Sample.host Sample.both_on)
  = (Return (setattr (Sample.fresh (VStr "pbkdf2$d")) "password_change_date"
                     (VDateTime (1000 * Sample.day))),
     Sample.host Sample.both_on).
Proof.
  refine (proj1 (C5_new_record_stamped (Sample.host Sample.both_on)
                   (Sample.fresh (VStr "pbkdf2$d")) false
                   "password_change_date" (VStr "pbkdf2$d") _ _ _ _)).
  - reflexivity.
  - reflexivity.
  - vm_compute. reflexivity.
  - discriminate.
Defined.

Lemma C6_witness :
  (exists r, is_password_expired (Sample.obj 3 Sample.carol)
               (Sample.host Sample.both_on)
             = (Return r, Sample.host Sample.both_on) ∧ truthy r = false)
  ∧ (exists r, is_password_expired (Sample.obj 1 Sample.alice)
                 (Sample.host Sample.no_date_attr)
               = (Return r, Sample.host Sample.no_date_attr)
               ∧ truthy r = false).
Proof.
  split.
  - refine (proj1 (C6_is_password_expired_partial_data
                     (Sample.host Sample.both_on) (Sample.obj 3 Sample.carol) _)
                  "password_change_date" VNone _ _ _).
    + intros n Hn _. injection Hn as <-. split; vm_compute; discriminate.
    + reflexivity.
    + vm_compute. reflexivity.
    + reflexivity.
  - refine (proj2 (C6_is_password_expired_partial_data
                     (Sample.host Sample.no_date_attr)
                     (Sample.obj 1 Sample.alice) _) _).
    + intros n Hn _. injection Hn as <-. split; vm_compute; discriminate.
    + reflexivity.
Defined.

(** * Further properties of the module *)

(** ** ExpirySettings.get *)

(** X1: whatever the settings hold, ExpirySettings.get returns without
    changing the host, the password attribute name it returns is never
    empty, and the date attribute name is None or a non-empty name: an
    empty string in either setting reads as the setting being absent. *)
Theorem ExpirySettings_get_names (w : world) :
  exists s, ExpirySettings_get w = (Return s, w)
            ∧ password s ≠ ""
            ∧ date_changed s ≠ Some ""
            ∧ (AUTH_USER_MODEL_PASSWORD_ATTR (settings w) = Some ""
               -> password s = "password")
            ∧ (AUTH_USER_MODEL_PASSWORD_CHANGE_DATE_ATTR (settings w) = Some ""
               -> date_changed s = None).
Proof.
  eexists. split; [reflexivity|]. simpl. split_and!.
  - unfold or_str. destruct (AUTH_USER_MODEL_PASSWORD_ATTR _) as [a|]; [|done].
    destruct (String.eqb a "") eqn:E; [done|].
    intros ->. by rewrite String.eqb_refl in E.
  - unfold or_None.
    destruct (AUTH_USER_MODEL_PASSWORD_CHANGE_DATE_ATTR _) as [a|]; [|done].
    destruct (String.eqb a "") eqn:E; [done|].
    intros [= ->]. by rewrite String.eqb_refl in E.
  - by intros ->.
  - by intros ->.
Qed.

(** ** Missing attributes *)

(** X2: password expiry enabled, with a window for which Python computes
    the cutoff, and a date attribute configured that the user object does
    not have: is_password_expired returns None (falsy, the check does not
    trip) and logs exactly one warning naming the attribute. *)
Theorem is_password_expired_missing_attribute (w : world) (u : user)
    (n : Z) (a : string) :
  PASSWORD_EXPIRY_DAYS (settings w) = Some n -> 0 < n ->
  representable_window (now w) n ->
  AUTH_USER_MODEL_PASSWORD_CHANGE_DATE_ATTR (settings w) = Some a -> a ≠ "" ->
  fields u !! a = None ->
  is_password_expired u w
  = (Return VNone, with_log w (security_log w ++ [Warning_no_attribute a])).
Proof.
  intros Hn Hpos _ Ha Hne Hnone. unfold is_password_expired. run.
  rewrite Hn, (or_int_pos n Hpos). destruct (0 <? n) eqn:Hlt; [|lia]. simpl.
  unfold get_password_change_date. run.
  rewrite Ha, (or_None_Some a Hne), (hasattr_None _ _ Hnone). reflexivity.
Qed.

Lemma is_password_expired_missing_attribute_witness :
  is_password_expired (Sample.obj 5 Sample2.erin) (Sample2.host Sample.both_on)
  = (Return VNone,
     with_log (Sample2.host Sample.both_on)
              [Warning_no_attribute "password_change_date"]).
Proof.
  apply (is_password_expired_missing_attribute (Sample2.host Sample.both_on)
           (Sample.obj 5 Sample2.erin) 30 "password_change_date").
  - reflexivity.
  - lia.
  - split; vm_compute; discriminate.
  - reflexivity.
  - discriminate.
  - vm_compute. reflexivity.
Defined.

(** X3: account expiry enabled, with a window for which Python computes
    the cutoff, and a user object without a last_login attribute:
    is_account_expired returns None (falsy) and logs exactly one
    warning. *)
Theorem is_account_expired_missing_last_login (w : world) (u : user) (d : Z) :
  ACCOUNT_EXPIRY_DAYS (settings w) = Some d -> 0 < d ->
  representable_window (now w) d ->
  fields u !! "last_login" = None ->
  is_account_expired u w
  = (Return VNone, with_log w (security_log w ++ [Warning_no_last_login])).
Proof.
  intros Hd Hpos _ Hnone. unfold is_account_expired. run.
  rewrite Hd, (or_int_pos d Hpos). destruct (0 <? d) eqn:Hlt; [|lia]. simpl.
  unfold get_user_last_login. rewrite (hasattr_None _ _ Hnone). reflexivity.
Qed.

Lemma is_account_expired_missing_last_login_witness :
  is_account_expired (Sample.obj 5 Sample2.erin) (Sample2.host Sample.both_on)
  = (Return VNone,
     with_log (Sample2.host Sample.both_on) [Warning_no_last_login]).
Proof.
  apply (is_account_expired_missing_last_login (Sample2.host Sample.both_on)
           (Sample.obj 5 Sample2.erin) 90).
  - reflexivity.
  - lia.
  - split; vm_compute; discriminate.
  - vm_compute. reflexivity.
Defined.

(** ** The inactivity cutoff *)

(** X4: with account expiry enabled (d = ACCOUNT_EXPIRY_DAYS > 0, a
    window for which Python computes the cutoff) and a last login at the
    datetime t, is_account_expired returns True exactly when t is
    strictly before now - d days, a day being 86400000000 microseconds; a
    last login at the cutoff itself is not expired.  The host is not
    changed. *)
Theorem is_account_expired_cutoff (w : world) (u : user) (d t : Z) :
  ACCOUNT_EXPIRY_DAYS (settings w) = Some d -> 0 < d ->
  representable_window (now w) d ->
  fields u !! "last_login" = Some (VDateTime t) ->
  is_account_expired u w
  = (Return (VBool (bool_decide (t < now w - d * 86400000000))), w)
  ∧ (t = now w - d * 86400000000 ->
     is_account_expired u w = (Return (VBool false), w)).
Proof.
  intros Hd Hpos _ Ht.
  rewrite (is_account_expired_datetime w u d t Hd Hpos Ht).
  assert (Hc : now w - timedelta_days d = now w - d * 86400000000)
    by (unfold timedelta_days; lia).
  rewrite Hc. split; [|intros Heq]; do 3 f_equal.
  - destruct (t <? _) eqn:E; symmetry.
    + apply bool_decide_eq_true. lia.
    + apply bool_decide_eq_false. lia.
  - lia.
Qed.

(** The clock reads day 1000 and the window is 90 days, so the cutoff is
    day 910, microsecond 78624000000000: a last login one microsecond
    before it is stale, one at it is not. *)
Lemma is_account_expired_cutoff_witness :
  is_account_expired
    (setattr (Sample.obj 1 Sample.alice) "last_login"
             (VDateTime 78623999999999))
    (Sample.host Sample.both_on)
  = (Return (VBool true), Sample.host Sample.both_on)
  ∧ is_account_expired
      (setattr (Sample.obj 1 Sample.alice) "last_login"
               (VDateTime 78624000000000))
      (Sample.host Sample.both_on)
    = (Return (VBool false), Sample.host Sample.both_on).
Proof.
  split.
  - refine (eq_trans (proj1 (is_account_expired_cutoff
                       (Sample.host Sample.both_on)
                       (setattr (Sample.obj 1 Sample.alice) "last_login"
                                (VDateTime 78623999999999))
                       90 78623999999999 _ _ _ _)) _).
    + reflexivity.
    + lia.
    + split; vm_compute; discriminate.
    + vm_compute. reflexivity.
    + vm_compute. reflexivity.
  - refine (proj2 (is_account_expired_cutoff
                     (Sample.host Sample.both_on)
                     (setattr (Sample.obj 1 Sample.alice) "last_login"
                              (VDateTime 78624000000000))
                     90 78624000000000 _ _ _ _) _).
    + reflexivity.
    + lia.
    + split; vm_compute; discriminate.
    + vm_compute. reflexivity.
    + vm_compute. reflexivity.
Defined.

(** X5: with ACCOUNT_EXPIRY_DAYS absent, zero or negative,
    is_account_expired returns False for every user object without
    reading it, and logs nothing. *)
Theorem is_account_expired_disabled (w : world) (u : user) :
  (forall d, ACCOUNT_EXPIRY_DAYS (settings w) = Some d -> d <= 0) ->
  is_account_expired u w = (Return (VBool false), w).
Proof.
  intros H. unfold is_account_expired. run.
  destruct (ACCOUNT_EXPIRY_DAYS (settings w)) as [d|]; [|done].
  specialize (H d eq_refl). unfold or_int.
  destruct (d =? 0) eqn:E; simpl; [done|].
  by destruct (0 <? d) eqn:E'; [lia|].
Qed.

Lemma is_account_expired_disabled_witness :
  is_account_expired (Sample.obj 1 Sample.alice)
    (Sample.host Sample.no_date_attr)
  = (Return (VBool false), Sample.host Sample.no_date_attr).
Proof.
  apply (is_account_expired_disabled (Sample.host Sample.no_date_attr)).
  intros d Hd. discriminate Hd.
Defined.

(** ** The lookup *)

(** The rows that carry a natural key, when the manager finds one. *)
Lemma get_by_natural_key_found (key : value) (w w' : world) (u : user) :
  get_by_natural_key key w = (Return u, w') ->
  exists k, pk u = Some k
    ∧ rows w !! k = Some (fields u)
    ∧ natural_key_is (USERNAME_FIELD w) key (fields u) = true
    ∧ (forall k' r', rows w !! k' = Some r' ->
         natural_key_is (USERNAME_FIELD w) key r' = true -> k' = k).
Proof.
  unfold get_by_natural_key.
  set (P := fun kr : Z * gmap string value =>
              natural_key_is (USERNAME_FIELD w) key kr.2 = true).
  destruct (map_to_list (filter P (rows w))) as [|[k r] [|? ?]] eqn:E;
    try discriminate.
  intros [= <- <-]. exists k. simpl.
  assert (F : filter P (rows w) = {[k := r]}).
  { apply map_to_list_inj. by rewrite E, map_to_list_singleton. }
  assert (Hk : filter P (rows w) !! k = Some r)
    by (rewrite F; apply lookup_singleton_eq).
  apply map_lookup_filter_Some in Hk as [Hk HP].
  split_and!; try done.
  intros k' r' Hk' HP'.
  assert (Hf : filter P (rows w) !! k' = Some r')
    by (by apply map_lookup_filter_Some).
  rewrite F in Hf. apply lookup_singleton_Some in Hf. by destruct Hf as [-> _].
Qed.

(** The manager returns the one row that carries the natural key. *)
Lemma get_by_natural_key_unique (key : value) (w : world) (k : Z)
    (r : gmap string value) :
  rows w !! k = Some r ->
  natural_key_is (USERNAME_FIELD w) key r = true ->
  (forall k' r', rows w !! k' = Some r' ->
     natural_key_is (USERNAME_FIELD w) key r' = true -> k' = k) ->
  get_by_natural_key key w = (Return {| pk := Some k; fields := r |}, w).
Proof.
  intros Hk HP Huniq. unfold get_by_natural_key.
  set (P := fun kr : Z * gmap string value =>
              natural_key_is (USERNAME_FIELD w) key kr.2 = true).
  assert (F : filter P (rows w) = {[k := r]}).
  { apply map_eq. intros i. destruct (decide (i = k)) as [-> | Hik].
    - rewrite lookup_singleton_eq. by apply map_lookup_filter_Some.
    - rewrite lookup_singleton_ne by done.
      apply map_lookup_filter_None_2.
      destruct (rows w !! i) as [x|] eqn:Hi; [right | by left].
      intros x' [= <-] HPx. by apply Hik, (Huniq i x). }
  by rewrite F, map_to_list_singleton.
Qed.

(** X9: when exactly one row of the table carries the natural key in its
    USERNAME_FIELD column, _lookup_user returns that row as a user object
    with the row's primary key, and leaves the host unchanged. *)
Theorem lookup_user_unique (username password : value)
    (kwargs : gmap string value) (w : world) (k : Z) (r : gmap string value) :
  username ≠ VNone ->
  rows w !! k = Some r ->
  natural_key_is (USERNAME_FIELD w) username r = true ->
  (forall k' r', rows w !! k' = Some r' ->
     natural_key_is (USERNAME_FIELD w) username r' = true -> k' = k) ->
  _lookup_user username password kwargs w
  = (Return (Some {| pk := Some k; fields := r |}), w).
Proof.
  intros Hne Hk HP Huniq. unfold _lookup_user.
  replace (match username with
           | VNone => default VNone (kwargs !! USERNAME_FIELD w)
           | _ => username
           end) with username by (by destruct username).
  by rewrite (get_by_natural_key_unique username w k r Hk HP Huniq).
Qed.

Lemma lookup_user_unique_witness :
  _lookup_user (VStr "dora") VNone ∅ (Sample2.host Sample.both_on)
  = (Return (Some (Sample.obj 4 Sample2.dora)), Sample2.host Sample.both_on).
Proof.
  apply (lookup_user_unique (VStr "dora") VNone ∅
           (Sample2.host Sample.both_on) 4 Sample2.dora).
  - discriminate.
  - vm_compute. reflexivity.
  - vm_compute. reflexivity.
  - intros k' r' Hk' HP. simpl in Hk'. unfold Sample2.table in Hk'.
    destruct (decide (k' = 4)) as [-> | N4]; [done|].
    destruct (decide (k' = 1)) as [-> | N1];
      [injection Hk' as <-; vm_compute in HP; discriminate HP|].
    destruct (decide (k' = 5)) as [-> | N5];
      [injection Hk' as <-; vm_compute in HP; discriminate HP|].
    destruct (decide (k' = 6)) as [-> | N6];
      [injection Hk' as <-; vm_compute in HP; discriminate HP|].
    rewrite !lookup_insert_ne, lookup_singleton_ne in Hk' by done. done.
Defined.

(** X10: when two different rows carry the natural key, the manager's
    MultipleObjectsReturned is not caught: authenticate raises it, before
    any check is made, and the host is unchanged. *)
Theorem authenticate_ambiguous_key (save : user -> M user)
    (username password : value) (kwargs : gmap string value) (w : world)
    (k1 k2 : Z) (r1 r2 : gmap string value) :
  username ≠ VNone ->
  k1 ≠ k2 ->
  rows w !! k1 = Some r1 -> rows w !! k2 = Some r2 ->
  natural_key_is (USERNAME_FIELD w) username r1 = true ->
  natural_key_is (USERNAME_FIELD w) username r2 = true ->
  authenticate save username password kwargs w
  = (Raise MultipleObjectsReturned, w).
Proof.
  intros Hne Hk12 H1 H2 P1 P2.
  assert (L : _lookup_user username password kwargs w
              = (Raise MultipleObjectsReturned, w)).
  { unfold _lookup_user.
    replace (match username with
             | VNone => default VNone (kwargs !! USERNAME_FIELD w)
             | _ => username
             end) with username by (by destruct username).
    destruct (get_by_natural_key username w) as [[u|e] w0] eqn:G.
    - destruct (get_by_natural_key_found _ _ _ _ G) as (k & _ & _ & _ & Hu).
      pose proof (Hu k1 r1 H1 P1). pose proof (Hu k2 r2 H2 P2). congruence.
    - unfold get_by_natural_key in G.
      destruct (map_to_list _) as [|[k r] [|? ?]] eqn:E; simplify_eq; [|done].
      apply map_to_list_empty_iff in E.
      assert (Hf : filter (fun kr : Z * gmap string value =>
                             natural_key_is (USERNAME_FIELD w0) username kr.2
                             = true) (rows w0) !! k1 = Some r1)
        by (by apply map_lookup_filter_Some).
      rewrite E in Hf. by rewrite lookup_empty in Hf. }
  unfold authenticate. by rewrite (bind_Raise _ _ _ _ _ L).
Qed.

Lemma authenticate_ambiguous_key_witness :
  authenticate Model_save (VStr "alice") VNone ∅ (Sample2.host Sample.both_on)
  = (Raise MultipleObjectsReturned, Sample2.host Sample.both_on).
Proof.
  apply (authenticate_ambiguous_key Model_save (VStr "alice") VNone ∅
           (Sample2.host Sample.both_on) 1 6 Sample.alice Sample.alice).
  - discriminate.
  - lia.
  - vm_compute. reflexivity.
  - vm_compute. reflexivity.
  - vm_compute. reflexivity.
  - vm_compute. reflexivity.
Defined.

(** ** The gate as a whole *)

(** X6: both expiries enabled, with windows for which Python computes
    the cutoffs, and a resolved user that is not inactive, whose password
    change date is at or after the password cutoff and whose last login
    is at or after the inactivity cutoff (a day being 86400000000
    microseconds): authenticate returns None and the host (table, log,
    signals) is exactly as before. *)
Theorem authenticate_passes (save : user -> M user)
    (username password : value) (kwargs : gmap string value)
    (w : world) (u : user) (n d : Z) (attr : string) (t t' : Z) :
  _lookup_user username password kwargs w = (Return (Some u), w) ->
  (forall a, fields u !! "is_active" = Some a -> truthy a = true) ->
  PASSWORD_EXPIRY_DAYS (settings w) = Some n -> 0 < n ->
  representable_window (now w) n ->
  AUTH_USER_MODEL_PASSWORD_CHANGE_DATE_ATTR (settings w) = Some attr ->
  attr ≠ "" ->
  fields u !! attr = Some (VDateTime t) ->
  now w - n * 86400000000 <= t ->
  ACCOUNT_EXPIRY_DAYS (settings w) = Some d -> 0 < d ->
  representable_window (now w) d ->
  fields u !! "last_login" = Some (VDateTime t') ->
  now w - d * 86400000000 <= t' ->
  authenticate save username password kwargs w = (Return None, w).
Proof.
  intros Hlook Hact Hn Hnpos _ Hattr Hne Ht Hle Hd Hdpos _ Ht' Hle'.
  unfold authenticate.
  rewrite (bind_Return _ _ _ _ _ Hlook).
  rewrite (bind_Return _ _ _ _ _ (active_check_passes u w Hact)).
  rewrite (bind_Return _ _ _ _ _
             (is_password_expired_datetime w u n attr t Hn Hnpos Hattr Hne Ht)).
  simpl. destruct (t <? _) eqn:E; [unfold timedelta_days in E; lia|].
  rewrite (bind_Return _ _ _ _ _
             (is_account_expired_datetime w u d t' Hd Hdpos Ht')).
  simpl. by destruct (t' <? _) eqn:E'; [unfold timedelta_days in E'; lia|].
Qed.

Lemma authenticate_passes_witness :
  authenticate Model_save (VStr "dora") VNone ∅ (Sample2.host Sample.both_on)
  = (Return None, Sample2.host Sample.both_on).
Proof.
  apply (authenticate_passes Model_save (VStr "dora") VNone ∅
           (Sample2.host Sample.both_on) (Sample.obj 4 Sample2.dora)
           30 90 "password_change_date"
           (990 * Sample.day) (995 * Sample.day)).
  - vm_compute. reflexivity.
  - intros a Ha. vm_compute in Ha. by injection Ha as <-.
  - reflexivity.
  - lia.
  - split; vm_compute; discriminate.
  - reflexivity.
  - discriminate.
  - vm_compute. reflexivity.
  - vm_compute. discriminate.
  - reflexivity.
  - lia.
  - split; vm_compute; discriminate.
  - vm_compute. reflexivity.
  - vm_compute. discriminate.
Defined.

(** X7: the backend never authenticates.  Whenever authenticate returns
    instead of raising, for any save operation, the value is None, and
    neither the user table nor the signals sent have changed: only
    warnings may have been logged. *)
Theorem authenticate_returns_only_None (save : user -> M user)
    (username password : value) (kwargs : gmap string value)
    (w w' : world) (o : option user) :
  authenticate save username password kwargs w = (Return o, w') ->
  o = None ∧ rows w' = rows w ∧ sent w' = sent w.
Proof.
  unfold authenticate.
  destruct (_lookup_user username password kwargs w) as [[found|e] w0] eqn:L;
    [|rewrite (bind_Raise _ _ _ _ _ L); discriminate].
  pose proof (lookup_user_world _ _ _ _ _ _ L) as ->.
  rewrite (bind_Return _ _ _ _ _ L).
  destruct found as [u|]; [|by intros [= <- <-]].
  destruct (active_check_total u w) as [b Hb].
  rewrite (bind_Return _ _ _ _ _ Hb). destruct b; [discriminate|].
  destruct (is_password_expired u w) as [[r|e] w1] eqn:Hpw;
    [|rewrite (bind_Raise _ _ _ _ _ Hpw); discriminate].
  pose proof (is_password_expired_frame _ _ _ _ Hpw) as Hw1.
  rewrite (bind_Return _ _ _ _ _ Hpw).
  destruct (truthy r); [discriminate|].
  destruct (is_account_expired u w1) as [[r'|e] w2] eqn:Hacc;
    [|rewrite (bind_Raise _ _ _ _ _ Hacc); discriminate].
  pose proof (is_account_expired_frame _ _ _ _ Hacc) as Hw2.
  rewrite (bind_Return _ _ _ _ _ Hacc).
  destruct (truthy r').
  - rewrite bind_logger_info. cbv zeta.
    destruct (save (setattr u "is_active" (VBool false))
                (with_log w2 (security_log w2 ++ [Info_disabling_stale u])))
      as [[u'|e] w3] eqn:S.
    + rewrite (bind_Return _ _ _ _ _ S). discriminate.
    + rewrite (bind_Raise _ _ _ _ _ S). discriminate.
  - intros [= <- <-]. rewrite Hw2, Hw1. done.
Qed.

Lemma authenticate_returns_only_None_witness :
  (None : option user) = None
  ∧ rows (with_log (Sample2.host Sample.both_on)
            [Warning_no_attribute "password_change_date";
             Warning_no_last_login])
    = rows (Sample2.host Sample.both_on)
  ∧ sent (with_log (Sample2.host Sample.both_on)
            [Warning_no_attribute "password_change_date";
             Warning_no_last_login])
    = sent (Sample2.host Sample.both_on).
Proof.
  apply (authenticate_returns_only_None Model_save (VStr "erin") VNone ∅
           (Sample2.host Sample.both_on)).
  vm_compute. reflexivity.
Defined.

(** ** More on the change-tracking hook *)

(** The hook reads the host and never writes to it. *)
Lemma set_password_changed_world (u : user) (created raw : bool)
    (w w' : world) (o : outcome user) :
  set_password_changed u created raw w = (o, w') -> w' = w.
Proof.
  unfold set_password_changed, update_date_changed, objects_get_pk. run.
  repeat case_match;
    unfold bind, ret, raise, timezone_now in *;
    repeat case_match; simplify_eq/=; intros ?; by simplify_eq/=.
Qed.

(** The user object that the hook returns is the one it received, or that
    one with the date attribute set to the current time. *)
Lemma set_password_changed_result (u u' : user) (created raw : bool)
    (w w' : world) :
  set_password_changed u created raw w = (Return u', w') ->
  u' = u
  ∨ exists attr,
      or_None (AUTH_USER_MODEL_PASSWORD_CHANGE_DATE_ATTR (settings w))
        = Some attr
      ∧ raw = false
      ∧ is_Some (fields u !! "password")
      ∧ u' = setattr u attr (VDateTime (now w)).
Proof.
  unfold set_password_changed, update_date_changed, objects_get_pk. run.
  destruct raw; simpl; [intros [= <- <-]; by left|].
  destruct (or_None _) as [attr|] eqn:Hattr; simpl; [|intros [= <- <-]; by left].
  destruct (pk u) as [k|]; simpl.
  - destruct (rows w !! k) as [r|]; simpl; [|discriminate].
    destruct (r !! _) as [stored|]; simpl; [|discriminate].
    destruct (fields u !! "password") as [cur|] eqn:Hcur; simpl; [|discriminate].
    destruct (py_ne stored cur); simpl; intros [= <- <-]; [right | by left].
    exists attr. eauto.
  - destruct (fields u !! "password") as [cur|] eqn:Hcur; simpl; [|discriminate].
    destruct (py_ne VNone cur); simpl; intros [= <- <-]; [right | by left].
    exists attr. eauto.
Qed.

(** X11: with the hook enabled, a user object whose primary key is set
    but is not in the table cannot be saved: the hook's query for the
    previous password raises DoesNotExist, and Django's save raises it
    before writing anything. *)
Theorem set_password_changed_unknown_pk (w : world) (u : user)
    (created : bool) (attr : string) (k : Z) :
  or_None (AUTH_USER_MODEL_PASSWORD_CHANGE_DATE_ATTR (settings w)) = Some attr ->
  pk u = Some k -> rows w !! k = None ->
  set_password_changed u created false w = (Raise DoesNotExist, w)
  ∧ Model_save u w = (Raise DoesNotExist, w).
Proof.
  intros Hattr Hpk Hrow.
  assert (E : forall c, set_password_changed u c false w
                        = (Raise DoesNotExist, w)).
  { intros c. unfold set_password_changed, update_date_changed, objects_get_pk.
    run. rewrite Hattr, Hpk. simpl. by rewrite Hrow. }
  split; [apply E|]. unfold Model_save.
  by rewrite (bind_Raise _ _ _ _ _ (E false)).
Qed.

Lemma set_password_changed_unknown_pk_witness :
  set_password_changed (Sample.obj 9 Sample.alice) false false
    (Sample.host Sample.both_on)
  = (Raise DoesNotExist, Sample.host Sample.both_on)
  ∧ Model_save (Sample.obj 9 Sample.alice) (Sample.host Sample.both_on)
    = (Raise DoesNotExist, Sample.host Sample.both_on).
Proof.
  apply (set_password_changed_unknown_pk (Sample.host Sample.both_on)
           (Sample.obj 9 Sample.alice) false "password_change_date" 9).
  - reflexivity.
  - reflexivity.
  - vm_compute. reflexivity.
Defined.

(** X12: what the hook never does.  Whatever its outcome, the host is as
    before: the stamp is made on the object in memory and is not written
    to the table.  When it returns, the primary key is unchanged and so
    is every attribute other than the configured date attribute; with no
    date attribute configured the object is returned as it was. *)
Theorem set_password_changed_frame (u : user) (created raw : bool)
    (w w' : world) (o : outcome user) :
  set_password_changed u created raw w = (o, w') ->
  w' = w
  ∧ (forall u', o = Return u' ->
       pk u' = pk u
       ∧ (forall name,
            or_None (AUTH_USER_MODEL_PASSWORD_CHANGE_DATE_ATTR (settings w))
              ≠ Some name ->
            fields u' !! name = fields u !! name)
       ∧ (or_None (AUTH_USER_MODEL_PASSWORD_CHANGE_DATE_ATTR (settings w))
            = None -> u' = u)).
Proof.
  intros H. pose proof (set_password_changed_world _ _ _ _ _ _ H) as ->.
  split; [done|]. intros u' ->.
  destruct (set_password_changed_result _ _ _ _ _ _ H)
    as [-> | (attr & Hattr & _ & _ & ->)].
  - done.
  - split_and!.
    + done.
    + intros name Hname. simpl. apply lookup_insert_ne. congruence.
    + congruence.
Qed.

Lemma set_password_changed_frame_witness :
  Sample.host Sample.both_on = Sample.host Sample.both_on
  ∧ (forall u',
       Return (setattr
                 (setattr (Sample.obj 1 Sample.alice) "password"
                          (VStr "pbkdf2$new"))
                 "password_change_date" (VDateTime (1000 * Sample.day)))
       = Return u' ->
       pk u' = Some 1
       ∧ (forall name,
            or_None (Some "password_change_date") ≠ Some name ->
            fields u' !! name
            = <["password" := VStr "pbkdf2$new"]> Sample.alice !! name)
       ∧ (or_None (Some "password_change_date") = None ->
          u' = setattr (Sample.obj 1 Sample.alice) "password"
                       (VStr "pbkdf2$new"))).
Proof.
  apply (set_password_changed_frame
           (setattr (Sample.obj 1 Sample.alice) "password" (VStr "pbkdf2$new"))
           false false (Sample.host Sample.both_on)).
  vm_compute. reflexivity.
Defined.

Lemma set_password_changed_default_attr_witness :
  set_password_changed (Sample.obj 1 Sample.alice) false false
    (Sample.host Sample.both_on)
  = (Return (Sample.obj 1 Sample.alice), Sample.host Sample.both_on).
Proof.
  refine (proj1 (set_password_changed_default_attr
                   (Sample.host Sample.both_on) (Sample.obj 1 Sample.alice)
                   false "password_change_date" 1 Sample.alice
                   (VStr "pbkdf2$a") (VStr "pbkdf2$a") _ _ _ _ _ _) _).
  - reflexivity.
  - reflexivity.
  - reflexivity.
  - vm_compute. reflexivity.
  - vm_compute. reflexivity.
  - vm_compute. reflexivity.
  - vm_compute. reflexivity.
Defined.

(** X14: saving twice stamps at most once.  With the password attribute
    at its default name, once Django's save of a user object has
    returned, the hook finds the stored password equal to the one in
    memory: run on the saved object in the resulting host, it returns the
    object as it is. *)
Theorem set_password_changed_after_save (w w' : world) (u u' : user)
    (created raw : bool) :
  or_str (AUTH_USER_MODEL_PASSWORD_ATTR (settings w)) "password" = "password" ->
  Model_save u w = (Return u', w') ->
  set_password_changed u' created raw w' = (Return u', w').
Proof.
  intros Hdef. unfold Model_save.
  destruct (set_password_changed u false false w) as [[u1|e] w1] eqn:H1;
    [|rewrite (bind_Raise _ _ _ _ _ H1); discriminate].
  pose proof (set_password_changed_world _ _ _ _ _ _ H1) as ->.
  rewrite (bind_Return _ _ _ _ _ H1).
  assert (Hpw : or_None (AUTH_USER_MODEL_PASSWORD_CHANGE_DATE_ATTR (settings w))
                ≠ None -> is_Some (fields u1 !! "password")).
  { intros Hon.
    destruct (set_password_changed_result _ _ _ _ _ _ H1)
      as [-> | (attr & _ & _ & Hp & ->)].
    - revert H1.
      unfold set_password_changed, update_date_changed, objects_get_pk. run.
      destruct (or_None _) as [attr|]; [|done]. simpl.
      destruct (fields u !! "password") as [cur|]; [eauto|].
      repeat case_match; unfold bind, raise in *; repeat case_match;
        simplify_eq/=; intros ?; simplify_eq/=.
    - simpl. destruct (decide (attr = "password")) as [-> | Hne].
      + rewrite lookup_insert_eq. eauto.
      + by rewrite lookup_insert_ne. }
  assert (G : forall k (w2 : world),
             settings w2 = settings w -> now w2 = now w ->
             rows w2 !! k = Some (fields u1) ->
             set_password_changed {| pk := Some k; fields := fields u1 |}
               created raw w2
             = (Return {| pk := Some k; fields := fields u1 |}, w2)).
  { intros k w2 Hs Hn Hrow.
    unfold set_password_changed, update_date_changed, objects_get_pk. run.
    rewrite Hs. destruct raw; [done|]. simpl.
    destruct (or_None _) as [attr|] eqn:Hattr; [|done]. simpl.
    rewrite Hrow. simpl. rewrite Hdef.
    destruct (Hpw ltac:(done)) as [p Hp]. rewrite Hp. simpl.
    unfold py_ne. by rewrite py_eq_refl. }
  destruct (pk u1) as [k|] eqn:Hpk; intros [= <- <-].
  - destruct u1 as [pk1 f1]. simpl in *. subst pk1.
    apply (G k); simpl; try done. apply lookup_insert_eq.
  - apply (G (next_pk w)); simpl; try done. apply lookup_insert_eq.
Qed.

Lemma set_password_changed_after_save_witness :
  set_password_changed
    {| pk := Some 4;
       fields := <["password_change_date" := VDateTime (1000 * Sample.day)]>
                   (fields (Sample.fresh (VStr "pbkdf2$d"))) |}
    false false
    (with_rows (Sample.host Sample.both_on)
       (<[4 := <["password_change_date" := VDateTime (1000 * Sample.day)]>
                 (fields (Sample.fresh (VStr "pbkdf2$d")))]> Sample.table) 5)
  = (Return
       {| pk := Some 4;
          fields := <["password_change_date" := VDateTime (1000 * Sample.day)]>
                      (fields (Sample.fresh (VStr "pbkdf2$d"))) |},
     with_rows (Sample.host Sample.both_on)
       (<[4 := <["password_change_date" := VDateTime (1000 * Sample.day)]>
                 (fields (Sample.fresh (VStr "pbkdf2$d")))]> Sample.table) 5).
Proof.
  apply (set_password_changed_after_save (Sample.host Sample.both_on) _
           (Sample.fresh (VStr "pbkdf2$d"))).
  - reflexivity.
  - vm_compute. reflexivity.
Defined.

(** ** Two attempts in a row *)

(** X15: after the gate has deactivated a stale account (the situation of
    the account-expired denial, with Django's save, a user model that has
    an is_active column and the password kept in the attribute password),
    the next attempt with the same credentials is denied as
    PermissionDenied "Account is not active", and that attempt changes
    nothing: the account is not saved and no signal is sent a second
    time. *)
Theorem authenticate_after_deactivation
    (username password : value) (kwargs : gmap string value)
    (w : world) (u : user) (d t : Z) (p flag : value) :
  ACCOUNT_EXPIRY_DAYS (settings w) = Some d -> 0 < d ->
  PASSWORD_EXPIRY_DAYS (settings w) = Some 0
  ∨ PASSWORD_EXPIRY_DAYS (settings w) = None ->
  _lookup_user username password kwargs w = (Return (Some u), w) ->
  fields u !! "is_active" = Some flag -> truthy flag = true ->
  fields u !! "last_login" = Some (VDateTime t) ->
  t < now w - timedelta_days d ->
  or_str (AUTH_USER_MODEL_PASSWORD_ATTR (settings w)) "password" = "password" ->
  fields u !! "password" = Some p ->
  USERNAME_FIELD w ≠ "is_active" ->
  authenticate Model_save username password kwargs
    (authenticate Model_save username password kwargs w).2
  = (Raise (PermissionDenied "Account is not active"),
     (authenticate Model_save username password kwargs w).2).
Proof.
  intros Hd Hpos Hoff Hlook Hflag Htrue Ht Hlt Hdef Hp Hfield.
  destruct (authenticate_account_expired_Model_save username password kwargs
              w u d t p flag Hd Hpos Hoff Hlook Hflag Htrue Ht Hlt Hdef Hp)
    as (k & Hpk & ->).
  simpl. set (w1 := with_sent _ _).
  set (key := match username with
              | VNone => default VNone (kwargs !! USERNAME_FIELD w)
              | _ => username
              end).
  assert (G : get_by_natural_key key w = (Return u, w)).
  { revert Hlook. unfold _lookup_user. fold key.
    destruct (get_by_natural_key key w) as [[u0|[]] w0]; congruence. }
  destruct (get_by_natural_key_found _ _ _ _ G)
    as (k0 & Hpk0 & Hrow & HP & Huniq).
  assert (k0 = k) as -> by congruence.
  set (r1 := <["is_active" := VBool false]> (fields u)).
  assert (Hkey : forall r : gmap string value,
             natural_key_is (USERNAME_FIELD w) key
               (<["is_active" := VBool false]> r)
             = natural_key_is (USERNAME_FIELD w) key r).
  { intros r. unfold natural_key_is. by rewrite lookup_insert_ne. }
  assert (G1 : get_by_natural_key key w1
               = (Return {| pk := Some k; fields := r1 |}, w1)).
  { apply get_by_natural_key_unique; simpl.
    - apply lookup_insert_eq.
    - unfold r1. by rewrite Hkey.
    - intros k' r' Hk' HP'. destruct (decide (k' = k)) as [|Hne]; [done|].
      rewrite lookup_insert_ne in Hk' by done. by apply (Huniq k' r'). }
  assert (L1 : _lookup_user username password kwargs w1
               = (Return (Some {| pk := Some k; fields := r1 |}), w1)).
  { unfold _lookup_user. change (USERNAME_FIELD w1) with (USERNAME_FIELD w).
    fold key. by rewrite G1. }
  assert (Hoff1 : fields {| pk := Some k; fields := r1 |} !! "is_active"
                  = Some (VBool false)) by apply lookup_insert_eq.
  unfold authenticate. rewrite (bind_Return _ _ _ _ _ L1).
  by rewrite (bind_Return _ _ _ _ _
                (active_check_fails _ w1 (VBool false) Hoff1 eq_refl)).
Qed.

Lemma authenticate_after_deactivation_witness :
  authenticate Model_save (VStr "alice") VNone ∅
    (authenticate Model_save (VStr "alice") VNone ∅
       (Sample.host Sample.account_only)).2
  = (Raise (PermissionDenied "Account is not active"),
     (authenticate Model_save (VStr "alice") VNone ∅
        (Sample.host Sample.account_only)).2).
Proof.
  apply (authenticate_after_deactivation (VStr "alice") VNone ∅
           (Sample.host Sample.account_only) (Sample.obj 1 Sample.alice)
           90 (909 * Sample.day) (VStr "pbkdf2$a") (VBool true)).
  - reflexivity.
  - lia.
  - left. reflexivity.
  - vm_compute. reflexivity.
  - vm_compute. reflexivity.
  - reflexivity.
  - vm_compute. reflexivity.
  - vm_compute. reflexivity.
  - reflexivity.
  - vm_compute. reflexivity.
  - discriminate.
Defined.

(** ** When the checks trip *)

Lemma or_int_pos_inv (x : option Z) :
  0 < or_int x 0 -> exists n, x = Some n ∧ 0 < n ∧ or_int x 0 = n.
Proof.
  unfold or_int. destruct x as [n|]; [|lia].
  destruct (n =? 0) eqn:E; [lia|]. eauto.
Qed.

Lemma or_None_Some_inv (x : option string) (a : string) :
  or_None x = Some a -> x = Some a ∧ a ≠ "".
Proof.
  unfold or_None. destruct x as [s|]; [|done].
  destruct (String.eqb s "") eqn:E; [done|].
  intros [= <-]. split; [done|]. intros ->. by rewrite String.eqb_refl in E.
Qed.

Lemma and_before_truthy (v r : value) (e : Z) (w w1 : world) :
  and_before v e w = (Return r, w1) -> truthy r = true ->
  exists t, v = VDateTime t ∧ t < e ∧ r = VBool true ∧ w1 = w.
Proof.
  unfold and_before. destruct (truthy v) eqn:T.
  - destruct v; try discriminate. unfold ret. intros [= <- <-] Hr.
    simpl in Hr. exists t. split_and!; try done; [lia|].
    by rewrite Hr.
  - unfold ret. intros [= <- <-] Hr. congruence.
Qed.

(** A truthy result of [is_password_expired] is True, and comes from a
    datetime before the cutoff. *)
Lemma is_password_expired_truthy_inv (u : user) (w w1 : world) (r : value) :
  is_password_expired u w = (Return r, w1) -> truthy r = true ->
  exists n a t,
    PASSWORD_EXPIRY_DAYS (settings w) = Some n ∧ 0 < n
    ∧ AUTH_USER_MODEL_PASSWORD_CHANGE_DATE_ATTR (settings w) = Some a
    ∧ a ≠ ""
    ∧ fields u !! a = Some (VDateTime t)
    ∧ t < now w - timedelta_days n
    ∧ r = VBool true ∧ w1 = w.
Proof.
  unfold is_password_expired. run.
  destruct (0 <? _) eqn:Hpos; simpl;
    [|intros [= <- <-]; discriminate].
  apply Z.ltb_lt in Hpos.
  destruct (or_int_pos_inv _ Hpos) as (n & Hn & Hnpos & ->).
  unfold get_password_change_date. run.
  destruct (or_None _) as [a|] eqn:Ha; simpl;
    [|intros [= <- <-]; discriminate].
  apply or_None_Some_inv in Ha as [Ha Hne].
  destruct (fields u !! a) as [v|] eqn:Hv.
  - rewrite (hasattr_Some _ _ _ Hv). simpl. intros H Hr.
    destruct (and_before_truthy _ _ _ _ _ H Hr) as (t & -> & Hlt & -> & ->).
    exists n, a, t. by split_and!.
  - rewrite (hasattr_None _ _ Hv). simpl. intros [= <- <-]. discriminate.
Qed.

(** A truthy result of [is_account_expired] is True, and comes from a
    last login before the cutoff. *)
Lemma is_account_expired_truthy_inv (u : user) (w w1 : world) (r : value) :
  is_account_expired u w = (Return r, w1) -> truthy r = true ->
  exists d t,
    ACCOUNT_EXPIRY_DAYS (settings w) = Some d ∧ 0 < d
    ∧ fields u !! "last_login" = Some (VDateTime t)
    ∧ t < now w - timedelta_days d
    ∧ r = VBool true ∧ w1 = w.
Proof.
  unfold is_account_expired. run.
  destruct (0 <? _) eqn:Hpos; simpl;
    [|intros [= <- <-]; discriminate].
  apply Z.ltb_lt in Hpos.
  destruct (or_int_pos_inv _ Hpos) as (d & Hd & Hdpos & ->).
  unfold get_user_last_login.
  destruct (fields u !! "last_login") as [v|] eqn:Hv.
  - rewrite (hasattr_Some _ _ _ Hv). run. rewrite Hv. simpl. intros H Hr.
    destruct (and_before_truthy _ _ _ _ _ H Hr) as (t & -> & Hlt & -> & ->).
    exists d, t. by split_and!.
  - rewrite (hasattr_None _ _ Hv). simpl. intros [= <- <-]. discriminate.
Qed.

(** X16: the two checks trip for no other reason than an old datetime.
    is_password_expired returns a truthy value exactly when password
    expiry is enabled, the date attribute is configured and the user's
    value for it is a datetime strictly before the cutoff; and
    is_account_expired returns a truthy value exactly when account expiry
    is enabled and last_login is a datetime strictly before its cutoff.
    In both cases the value is True and nothing is logged. *)
Theorem expiry_checks_trip_iff (u : user) (w : world) :
  ((exists r w1, is_password_expired u w = (Return r, w1) ∧ truthy r = true)
   <-> (exists n a t,
          PASSWORD_EXPIRY_DAYS (settings w) = Some n ∧ 0 < n
          ∧ AUTH_USER_MODEL_PASSWORD_CHANGE_DATE_ATTR (settings w) = Some a
          ∧ a ≠ ""
          ∧ fields u !! a = Some (VDateTime t)
          ∧ t < now w - timedelta_days n))
  ∧ ((exists r w1, is_account_expired u w = (Return r, w1) ∧ truthy r = true)
     <-> (exists d t,
            ACCOUNT_EXPIRY_DAYS (settings w) = Some d ∧ 0 < d
            ∧ fields u !! "last_login" = Some (VDateTime t)
            ∧ t < now w - timedelta_days d)).
Proof.
  split; split.
  - intros (r & w1 & H & Hr).
    destruct (is_password_expired_truthy_inv _ _ _ _ H Hr)
      as (n & a & t & ? & ? & ? & ? & ? & ? & _).
    exists n, a, t. by split_and!.
  - intros (n & a & t & Hn & Hpos & Ha & Hne & Ht & Hlt).
    exists (VBool true), w. split; [|done].
    rewrite (is_password_expired_datetime w u n a t Hn Hpos Ha Hne Ht).
    by destruct (t <? _) eqn:E; [|lia].
  - intros (r & w1 & H & Hr).
    destruct (is_account_expired_truthy_inv _ _ _ _ H Hr)
      as (d & t & ? & ? & ? & ? & _).
    exists d, t. by split_and!.
  - intros (d & t & Hd & Hpos & Ht & Hlt).
    exists (VBool true), w. split; [|done].
    rewrite (is_account_expired_datetime w u d t Hd Hpos Ht).
    by destruct (t <? _) eqn:E; [|lia].
Qed.

(** X17: expiry is monotone in the clock.  With the same settings and the
    same user object, a check that trips at one clock reading trips at
    every later one: an expired password stays expired and a stale
    account stays stale until the record changes. *)
Theorem expiry_monotone_in_clock (u : user) (w w' : world)
    (r : value) (w1 : world) :
  settings w' = settings w -> now w <= now w' ->
  truthy r = true ->
  (is_password_expired u w = (Return r, w1) ->
   is_password_expired u w' = (Return (VBool true), w'))
  ∧ (is_account_expired u w = (Return r, w1) ->
     is_account_expired u w' = (Return (VBool true), w')).
Proof.
  intros Hs Hnow Hr. split; intros H.
  - destruct (is_password_expired_truthy_inv _ _ _ _ H Hr)
      as (n & a & t & Hn & Hpos & Ha & Hne & Ht & Hlt & _).
    rewrite <- Hs in Hn, Ha.
    rewrite (is_password_expired_datetime w' u n a t Hn Hpos Ha Hne Ht).
    by destruct (t <? _) eqn:E; [|lia].
  - destruct (is_account_expired_truthy_inv _ _ _ _ H Hr)
      as (d & t & Hd & Hpos & Ht & Hlt & _).
    rewrite <- Hs in Hd.
    rewrite (is_account_expired_datetime w' u d t Hd Hpos Ht).
    by destruct (t <? _) eqn:E; [|lia].
Qed.

Lemma expiry_monotone_in_clock_witness :
  is_password_expired (Sample.obj 1 Sample.alice)
    (Sample2.host_next_day Sample.both_on)
  = (Return (VBool true), Sample2.host_next_day Sample.both_on).
Proof.
  refine (proj1 (expiry_monotone_in_clock (Sample.obj 1 Sample.alice)
                   (Sample2.host Sample.both_on)
                   (Sample2.host_next_day Sample.both_on)
                   (VBool true) (Sample2.host Sample.both_on) _ _ _) _).
  - reflexivity.
  - vm_compute. discriminate.
  - reflexivity.
  - vm_compute. reflexivity.
Defined.
